(** * SkyRide Weather API: a shallow embedding of [Backend/app.py]

    The service resolves a city name to coordinates (Geoapify), fetches the
    current weather for them (OpenWeatherMap) and reshapes the payload,
    converting kelvin to Celsius.  The embedding follows the Python source
    function by function:

    - Python values are the inductive [pyval] (JSON documents as [json()]
      returns them: [None], [bool], [int], [float], [str], [list], [dict]);
    - a [float] is an IEEE 754 binary64 number, [spec_float] with
      [prec = 53] and [emax = 1024]; subtraction is [SFsub], and
      [round(x, 1)] is modelled as CPython computes it (correctly rounded
      decimal string with one digit, read back by a correctly rounded
      string-to-double conversion);
    - raising is explicit: every operation returns a [result], and each
      [try ... except] of the source is a [match] on that result;
    - the two [requests.get] calls are the only contact with the outside
      world; they are Section variables. *)

From Stdlib Require Import ZArith List String Ascii Bool Lia.
From Stdlib Require Import Floats.SpecFloat.
Import ListNotations.
Open Scope Z_scope.
Open Scope string_scope.

(** ** Results and exceptions *)

Inductive result (E A : Type) : Type :=
| Ok (a : A)
| Raise (e : E).
Arguments Ok {E A} a.
Arguments Raise {E A} e.

Definition bind {E A B} (r : result E A) (k : A -> result E B) : result E B :=
  match r with
  | Ok a => k a
  | Raise e => Raise e
  end.

Notation "x <- r ;; k" := (bind r (fun x => k))
  (at level 61, r at next level, right associativity).
Notation "' pat <- r ;; k" := (bind r (fun x => match x with pat => k end))
  (at level 61, pat pattern, r at next level, right associativity).

(** The exception classes the handlers of the source tell apart
    ([RequestException] versus everything else), together with the classes the
    modelled operations raise. *)
Inductive exc_class : Type :=
| RequestException
| ValueError
| KeyError
| IndexError
| TypeError
| AttributeError
| OverflowError
| OtherException.

(** A Python exception: its class and [str(e)]. *)
Record pyexc : Type := mk_exc { exc_class_of : exc_class; exc_str : string }.

(** [fastapi.HTTPException(status_code, detail)]. *)
Record HTTPException : Type := mk_http { status_code : Z; detail : string }.

(** What the body of the endpoint can raise: an [HTTPException] from one of
    the three helpers, or any other exception. *)
Inductive exn : Type :=
| Http (h : HTTPException)
| Py (e : pyexc).

Definition lift_http {A} (r : result HTTPException A) : result exn A :=
  match r with Ok a => Ok a | Raise h => Raise (Http h) end.

Definition lift_py {A} (r : result pyexc A) : result exn A :=
  match r with Ok a => Ok a | Raise e => Raise (Py e) end.

(** ** Python values *)

#[local] Set Warnings "-register-all".

Inductive pyval : Type :=
| PNone
| PBool (b : bool)
| PInt (z : Z)
| PFloat (f : spec_float)
| PStr (s : string)
| PList (l : list pyval)
| PDict (d : list (string * pyval)).

(** A [dict] with string keys, in insertion order; the first binding of a key
    is the one the dict holds. *)
Definition dict : Type := list (string * pyval).

Fixpoint dict_get (d : dict) (k : string) : option pyval :=
  match d with
  | [] => None
  | (k', v) :: d' => if String.eqb k' k then Some v else dict_get d' k
  end.

Fixpoint dict_set (d : dict) (k : string) (v : pyval) : dict :=
  match d with
  | [] => [(k, v)]
  | (k', v') :: d' =>
      if String.eqb k' k then (k, v) :: d' else (k', v') :: dict_set d' k v
  end.

(** [type(v).__name__] *)
Definition type_name (v : pyval) : string :=
  match v with
  | PNone => "NoneType"
  | PBool _ => "bool"
  | PInt _ => "int"
  | PFloat _ => "float"
  | PStr _ => "str"
  | PList _ => "list"
  | PDict _ => "dict"
  end.

(** ** Floats: IEEE 754 binary64 *)

Module Float.

Definition prec : Z := 53.
Definition emax : Z := 1024.

Definition sub : spec_float -> spec_float -> spec_float := SFsub prec emax.

(** The double nearest to [n / d] (ties to even), with sign [neg]; [0 <= n],
    [0 < d].  This is what a correctly rounded string-to-double conversion
    ([float("27.3")], a literal in the source, [strtod]) computes for the
    decimal fraction [n / d]. *)
Definition of_fraction (neg : bool) (n d : Z) : spec_float :=
  match n with
  | Z0 => S754_zero neg
  | _ => let '(mz, ez, lz) := SFdiv_core_binary prec emax n 0 d 0 in
         binary_round_aux prec emax neg mz ez lz
  end.

(** The double written in decimal as [digits * 10^-scale]. *)
Definition of_decimal (neg : bool) (digits : Z) (scale : Z) : spec_float :=
  of_fraction neg digits (10 ^ scale).

(** [float(z)] for a Python [int]: nearest double, ties to even; an infinite
    result is CPython's OverflowError. *)
Definition of_int (z : Z) : result pyexc spec_float :=
  match binary_normalize prec emax z 0 false with
  | S754_infinity _ => Raise (mk_exc OverflowError "int too large to convert to float")
  | f => Ok f
  end.

(** Nearest integer to [n / d], ties to even ([0 <= n], [0 < d]). *)
Definition round_half_even_div (n d : Z) : Z :=
  let q := n / d in
  match (2 * (n mod d)) ?= d with
  | Lt => q
  | Gt => q + 1
  | Eq => if Z.even q then q else q + 1
  end.

(** [|x| * 10] rounded to an integer for [|x| = m * 2^e]: the digits of the
    decimal string with one digit after the point that CPython's [round]
    produces from the exact value of the double. *)
Definition tenths (m : positive) (e : Z) : Z :=
  match e with
  | Zneg p => round_half_even_div (10 * Zpos m) (2 ^ Zpos p)
  | _ => 10 * Zpos m * 2 ^ e
  end.

(** [round(x, 1)] on a float.  NaN and the infinities round to themselves;
    a finite [x] is printed with one correctly rounded digit after the point
    and read back; when reading back overflows CPython raises OverflowError. *)
Definition round1 (x : spec_float) : result pyexc spec_float :=
  match x with
  | S754_finite s m e =>
      match of_fraction s (tenths m e) 10 with
      | S754_infinity _ =>
          Raise (mk_exc OverflowError "rounded value too large to represent")
      | r => Ok r
      end
  | _ => Ok x
  end.

(** [x == 0.0] *)
Definition is_zero (x : spec_float) : bool :=
  match x with S754_zero _ => true | _ => false end.

End Float.

(** ** Operations on Python values *)

Definition attribute_error (v : pyval) (attr : string) : pyexc :=
  mk_exc AttributeError
    ("'" ++ type_name v ++ "' object has no attribute '" ++ attr ++ "'").

Definition not_subscriptable (v : pyval) : pyexc :=
  mk_exc TypeError ("'" ++ type_name v ++ "' object is not subscriptable").

(** [bool(v)] *)
Definition py_truthy (v : pyval) : bool :=
  match v with
  | PNone => false
  | PBool b => b
  | PInt z => negb (Z.eqb z 0)
  | PFloat f => negb (Float.is_zero f)
  | PStr s => negb (String.eqb s "")
  | PList l => match l with [] => false | _ => true end
  | PDict d => match d with [] => false | _ => true end
  end.

(** [v.get(key, default)]; only a dict has the method. *)
Definition py_get (v : pyval) (key : string) (default : pyval) : result pyexc pyval :=
  match v with
  | PDict d => match dict_get d key with
               | Some x => Ok x
               | None => Ok default
               end
  | _ => Raise (attribute_error v "get")
  end.

(** [v[0]] *)
Definition py_getitem_0 (v : pyval) : result pyexc pyval :=
  match v with
  | PList l => match l with
               | x :: _ => Ok x
               | [] => Raise (mk_exc IndexError "list index out of range")
               end
  | PStr s => match s with
              | String c _ => Ok (PStr (String c EmptyString))
              | EmptyString => Raise (mk_exc IndexError "string index out of range")
              end
  | PDict _ => Raise (mk_exc KeyError "0")
  | _ => Raise (not_subscriptable v)
  end.

(** [v[key]] for a string key; [str(KeyError(key))] is the quoted key. *)
Definition py_getitem (v : pyval) (key : string) : result pyexc pyval :=
  match v with
  | PDict d => match dict_get d key with
               | Some x => Ok x
               | None => Raise (mk_exc KeyError ("'" ++ key ++ "'"))
               end
  | PList _ => Raise (mk_exc TypeError "list indices must be integers or slices, not str")
  | PStr _ => Raise (mk_exc TypeError "string indices must be integers, not 'str'")
  | _ => Raise (not_subscriptable v)
  end.

(** [len(v)] *)
Definition py_len (v : pyval) : result pyexc Z :=
  match v with
  | PList l => Ok (Z.of_nat (List.length l))
  | PDict d => Ok (Z.of_nat (List.length d))
  | PStr s => Ok (Z.of_nat (String.length s))
  | _ => Raise (mk_exc TypeError ("object of type '" ++ type_name v ++ "' has no len()"))
  end.

(** [v[key] = x] for a string key *)
Definition py_setitem (v : pyval) (key : string) (x : pyval) : result pyexc pyval :=
  match v with
  | PDict d => Ok (PDict (dict_set d key x))
  | PList _ => Raise (mk_exc TypeError "list indices must be integers or slices, not str")
  | _ => Raise (mk_exc TypeError
                  ("'" ++ type_name v ++ "' object does not support item assignment"))
  end.

(** [v - c] for a float [c]: a float operand is used as it is, an [int] (and a
    [bool], which is an int) is converted first, anything else is a TypeError. *)
Definition py_sub_float (v : pyval) (c : spec_float) : result pyexc spec_float :=
  match v with
  | PFloat f => Ok (Float.sub f c)
  | PInt z => f <- Float.of_int z ;; Ok (Float.sub f c)
  | PBool b => f <- Float.of_int (if b then 1 else 0) ;; Ok (Float.sub f c)
  | _ => Raise (mk_exc TypeError
                  ("unsupported operand type(s) for -: '" ++ type_name v ++ "' and 'float'"))
  end.

(** ** The source, function by function *)

(** The literal [273.15]. *)
Definition kelvin_offset : spec_float := Float.of_decimal false 27315 2.

(** [def convert_kelvin_to_celsius(value): return round(value - 273.15, 1)] *)
Definition convert_kelvin_to_celsius (value : pyval) : result pyexc pyval :=
  x <- py_sub_float value kelvin_offset ;;
  r <- Float.round1 x ;;
  Ok (PFloat r).

(** [formatter], the body of its [try]. *)
Definition formatter_body (payload : pyval) : result pyexc pyval :=
  w <- py_get payload "weather" (PList [PDict []]) ;;
  weather <- py_getitem_0 w ;;
  main <- py_get payload "main" (PDict []) ;;
  wind <- py_get payload "wind" (PDict []) ;;
  city <- py_get payload "name" PNone ;;
  sys <- py_get payload "sys" (PDict []) ;;
  country <- py_get sys "country" PNone ;;
  coordinates <- py_get payload "coord" PNone ;;
  label <- py_get weather "main" PNone ;;
  description <- py_get weather "description" PNone ;;
  icon <- py_get weather "icon" PNone ;;
  temp <- py_get main "temp" (PInt 0) ;;
  current_c <- convert_kelvin_to_celsius temp ;;
  feels_like <- py_get main "feels_like" (PInt 0) ;;
  feels_like_c <- convert_kelvin_to_celsius feels_like ;;
  temp_min <- py_get main "temp_min" (PInt 0) ;;
  min_c <- convert_kelvin_to_celsius temp_min ;;
  temp_max <- py_get main "temp_max" (PInt 0) ;;
  max_c <- convert_kelvin_to_celsius temp_max ;;
  humidity <- py_get main "humidity" PNone ;;
  pressure <- py_get main "pressure" PNone ;;
  speed_mps <- py_get wind "speed" PNone ;;
  direction_deg <- py_get wind "deg" PNone ;;
  gust_mps <- py_get wind "gust" PNone ;;
  visibility_m <- py_get payload "visibility" PNone ;;
  clouds <- py_get payload "clouds" (PDict []) ;;
  cloud_cover_pct <- py_get clouds "all" PNone ;;
  timestamp <- py_get payload "dt" PNone ;;
  timezone_offset_s <- py_get payload "timezone" PNone ;;
  Ok (PDict
        [ ("city", city);
          ("country", country);
          ("coordinates", coordinates);
          ("conditions", PDict [ ("label", label);
                                 ("description", description);
                                 ("icon", icon) ]);
          ("temperature", PDict [ ("current_c", current_c);
                                  ("feels_like_c", feels_like_c);
                                  ("min_c", min_c);
                                  ("max_c", max_c) ]);
          ("humidity", humidity);
          ("pressure", pressure);
          ("wind", PDict [ ("speed_mps", speed_mps);
                           ("direction_deg", direction_deg);
                           ("gust_mps", gust_mps) ]);
          ("visibility_m", visibility_m);
          ("cloud_cover_pct", cloud_cover_pct);
          ("timestamp", timestamp);
          ("timezone_offset_s", timezone_offset_s);
          ("source", PStr "openweathermap") ]).

(** [formatter]: any exception of the body becomes a 500. *)
Definition formatter (payload : pyval) : result HTTPException pyval :=
  match formatter_body payload with
  | Ok formatted => Ok formatted
  | Raise e => Raise (mk_http 500 ("Data formatting error: " ++ exc_str e))
  end.

Section Providers.

(** [requests.get(url, timeout=5)], [raise_for_status()] and [json()] against
    the geocoding provider, as a function of the city put into the URL: the
    parsed body, or the exception raised on the way (a connection error, a
    timeout, an error status and an undecodable body are all
    [RequestException]s). *)
Variable geoapify : string -> result pyexc pyval.

(** The same for the weather provider, as a function of the [lat] and [lon]
    put into the URL. *)
Variable openweathermap : pyval -> pyval -> result pyexc pyval.

(** [convert_cityname_to_coordinate], the body of its [try]. *)
Definition convert_cityname_to_coordinate_body (city : string)
  : result pyexc (pyval * pyval) :=
  data <- geoapify city ;;
  results <- py_get data "results" PNone ;;
  not_found <-
    (if negb (py_truthy results) then Ok true
     else r <- py_getitem data "results" ;;
          n <- py_len r ;;
          Ok (Z.eqb n 0)) ;;
  if (not_found : bool) then
    Raise (mk_exc ValueError ("City '" ++ city ++ "' not found in geocoding results"))
  else
    r <- py_getitem data "results" ;;
    first <- py_getitem_0 r ;;
    lon <- py_getitem first "lon" ;;
    r' <- py_getitem data "results" ;;
    first' <- py_getitem_0 r' ;;
    lat <- py_getitem first' "lat" ;;
    Ok (lat, lon).

(** [convert_cityname_to_coordinate] with its two handlers. *)
Definition convert_cityname_to_coordinate (city : string)
  : result HTTPException (pyval * pyval) :=
  match convert_cityname_to_coordinate_body city with
  | Ok coordinate => Ok coordinate
  | Raise e =>
      match exc_class_of e with
      | RequestException =>
          Raise (mk_http 500
                   ("Geocoding API error: " ++ exc_str e ++ ". Check GEOCODING_API_KEY."))
      | _ => Raise (mk_http 500 (exc_str e))
      end
  end.

(** [weather_info] with its two handlers. *)
Definition weather_info (lat lon : pyval) : result HTTPException pyval :=
  match openweathermap lat lon with
  | Ok data => Ok data
  | Raise e =>
      match exc_class_of e with
      | RequestException =>
          Raise (mk_http 500
                   ("Weather API error: " ++ exc_str e ++ ". Check OPENWEATHER_API_KEY."))
      | _ => Raise (mk_http 500 (exc_str e))
      end
  end.

(** The [/weather] endpoint, the body of its [try]. *)
Definition weather_body (city : string) : result exn pyval :=
  ' (lat, lon) <- lift_http (convert_cityname_to_coordinate city) ;;
  payload <- lift_http (weather_info lat lon) ;;
  formatted_data <- lift_http (formatter payload) ;;
  formatted_data' <- lift_py (py_setitem formatted_data "input_city" (PStr city)) ;;
  Ok formatted_data'.

(** The [/weather] endpoint: an [HTTPException] is re-raised, anything else
    becomes a 500. *)
Definition weather (city : string) : result HTTPException pyval :=
  match weather_body city with
  | Ok formatted_data => Ok formatted_data
  | Raise (Http h) => Raise h
  | Raise (Py e) => Raise (mk_http 500 ("Unexpected error: " ++ exc_str e))
  end.

End Providers.

(** [GET /] *)
Definition root : pyval :=
  PDict [ ("message", PStr "Hello World"); ("status", PStr "Backend is running") ].

(** What [json.dumps(value, allow_nan=False)] accepts: a value that holds
    no NaN and no infinity, at any depth. *)
Fixpoint json_compliant (v : pyval) : bool :=
  match v with
  | PFloat f => match f with
                | S754_nan | S754_infinity _ => false
                | _ => true
                end
  | PList l => forallb json_compliant l
  | PDict d => forallb (fun kv => let '(_, x) := kv in json_compliant x) d
  | _ => true
  end.

(** How FastAPI answers.  A raised [HTTPException] gives its status with
    [{"detail": detail}] as the body.  A returned value is serialised with
    [allow_nan=False]: status 200 with the value as the body, or, when the
    value holds NaN or an infinity, serialisation raises outside the handler
    and the server answers with the plain text "Internal Server Error" and
    status 500 (the text body is the string here, there is no detail). *)
Definition respond (r : result HTTPException pyval) : Z * pyval :=
  match r with
  | Ok body =>
      if json_compliant body then (200, body)
      else (500, PStr "Internal Server Error")
  | Raise h => (status_code h, PDict [ ("detail", PStr (detail h)) ])
  end.

(** ** Vocabulary of the statements *)

(** [v[k]] and [v[k1][k2]] on a value that is read, not run. *)
Definition field (v : pyval) (k : string) : option pyval :=
  match v with
  | PDict d => dict_get d k
  | _ => None
  end.

Definition field2 (v : pyval) (k1 k2 : string) : option pyval :=
  match field v k1 with
  | Some v' => field v' k2
  | None => None
  end.

(** The four temperature fields: the key read from [main] and the key written
    under ["temperature"]. *)
Definition temperature_fields : list (string * string) :=
  [ ("temp", "current_c"); ("feels_like", "feels_like_c");
    ("temp_min", "min_c"); ("temp_max", "max_c") ].

Definition null_conditions : pyval :=
  PDict [ ("label", PNone); ("description", PNone); ("icon", PNone) ].

Definition null_wind : pyval :=
  PDict [ ("speed_mps", PNone); ("direction_deg", PNone); ("gust_mps", PNone) ].

(** The message of the ValueError raised for an unknown city. *)
Definition not_found_message (city : string) : string :=
  "City '" ++ city ++ "' not found in geocoding results".

(** Float literals used in the statements. *)
Definition float_0_0 : spec_float := S754_zero false.
Definition float_10_0 : spec_float := Float.of_decimal false 100 1.
Definition float_26_9 : spec_float := Float.of_decimal false 269 1.
Definition float_300_0 : spec_float := Float.of_decimal false 3000 1.
Definition float_minus_273_1 : spec_float := Float.of_decimal true 2731 1.

(** The end-to-end example: the two provider responses for London. *)
Definition london_lat : pyval := PFloat (Float.of_decimal false 5151 2).
Definition london_lon : pyval := PFloat (Float.of_decimal true 13 2).

Definition london_geocoding : pyval :=
  PDict [ ("results", PList [ PDict [ ("lat", london_lat); ("lon", london_lon) ] ]) ].

Definition london_payload : pyval :=
  PDict
    [ ("main", PDict [ ("temp", PFloat (Float.of_decimal false 28315 2));
                       ("feels_like", PFloat (Float.of_decimal false 2820 1));
                       ("temp_min", PFloat (Float.of_decimal false 2810 1));
                       ("temp_max", PFloat (Float.of_decimal false 2850 1));
                       ("humidity", PInt 70);
                       ("pressure", PInt 1012) ]);
      ("weather", PList [ PDict [ ("main", PStr "Clouds");
                                  ("description", PStr "overcast clouds");
                                  ("icon", PStr "04d") ] ]);
      ("wind", PDict [ ("speed", PFloat (Float.of_decimal false 31 1));
                       ("deg", PInt 200) ]);
      ("name", PStr "London");
      ("sys", PDict [ ("country", PStr "GB") ]);
      ("coord", PDict [ ("lat", london_lat); ("lon", london_lon) ]);
      ("visibility", PInt 10000);
      ("clouds", PDict [ ("all", PInt 90) ]);
      ("dt", PInt 1700000000);
      ("timezone", PInt 0) ].

(** Providers that answer every request the same way. *)
Definition geocoding_always (r : result pyexc pyval) : string -> result pyexc pyval :=
  fun _ => r.

Definition weather_always (r : result pyexc pyval) : pyval -> pyval -> result pyexc pyval :=
  fun _ _ => r.

(** A weather provider that knows London only. *)
Definition weather_london_only (lat lon : pyval) : result pyexc pyval :=
  match lat, lon with
  | PFloat a, PFloat b =>
      if SFeqb a (Float.of_decimal false 5151 2) && SFeqb b (Float.of_decimal true 13 2)
      then Ok london_payload
      else Raise (mk_exc RequestException "404 Client Error")
  | _, _ => Raise (mk_exc RequestException "400 Client Error")
  end.

(** Sample provider responses. *)
Definition payload_without_temp : pyval :=
  PDict [ ("main", PDict [ ("humidity", PInt 70) ]) ].

Definition payload_null_temp : dict :=
  [ ("main", PDict [ ("temp", PNone) ]) ].

Definition payload_without_wind : dict :=
  [ ("main", PDict [ ("temp", PFloat (Float.of_decimal false 28315 2)) ]);
    ("weather", PList [ PDict [ ("main", PStr "Clouds") ] ]);
    ("name", PStr "London") ].

Definition geocoding_no_results : pyval := PDict [ ("results", PList []) ].

Definition geocoding_two_results : pyval :=
  PDict [ ("results", PList [ PDict [ ("lat", london_lat); ("lon", london_lon) ];
                              PDict [ ("lat", PInt 42); ("lon", PInt (-83)) ] ]) ].

Definition geocoding_without_lon : pyval :=
  PDict [ ("results", PList [ PDict [ ("lat", london_lat) ] ]) ].

(** ** Vocabulary of the further statements *)

(** The value [d.get(k, default)] returns, given the lookup. *)
Definition get_or (o : option pyval) (default : pyval) : pyval :=
  match o with
  | Some v => v
  | None => default
  end.

Definition or_null (o : option pyval) : pyval := get_or o PNone.

(** The keys of the formatter's result, in order. *)
Definition formatted_keys : list string :=
  [ "city"; "country"; "coordinates"; "conditions"; "temperature"; "humidity";
    "pressure"; "wind"; "visibility_m"; "cloud_cover_pct"; "timestamp";
    "timezone_offset_s"; "source" ].

(** The top-level keys the formatter reads. *)
Definition payload_keys : list string :=
  [ "weather"; "main"; "wind"; "name"; "sys"; "coord"; "visibility"; "clouds";
    "dt"; "timezone" ].

(** Top-level values copied as they are: the key read and the key written. *)
Definition passthrough_fields : list (string * string) :=
  [ ("name", "city"); ("coord", "coordinates"); ("visibility", "visibility_m");
    ("dt", "timestamp"); ("timezone", "timezone_offset_s") ].

Definition is_dict (v : pyval) : bool :=
  match v with PDict _ => true | _ => false end.

(** Values on which [v - 273.15] is a TypeError. *)
Definition non_numeric (v : pyval) : bool :=
  match v with
  | PNone | PStr _ | PList _ | PDict _ => true
  | PBool _ | PInt _ | PFloat _ => false
  end.

(** NaN and the infinities. *)
Definition non_finite (x : spec_float) : bool :=
  match x with
  | S754_nan | S754_infinity _ => true
  | _ => false
  end.

(** A shape of payload the formatter accepts: ["weather"] absent or a list
    that starts with an object; ["main"], ["wind"], ["sys"], ["clouds"] absent
    or objects; each temperature absent, a float, a bool, or an int below
    [2^1023] in magnitude. *)
Definition object_or_absent (o : option pyval) : bool :=
  match o with
  | None => true
  | Some v => is_dict v
  end.

Definition weather_ok (o : option pyval) : bool :=
  match o with
  | None => true
  | Some (PList (PDict _ :: _)) => true
  | Some _ => false
  end.

Definition temperature_ok (o : option pyval) : bool :=
  match o with
  | None => true
  | Some (PFloat _) => true
  | Some (PBool _) => true
  | Some (PInt z) => Z.ltb (Z.abs z) (2 ^ 1023)
  | Some _ => false
  end.

Definition main_of (d : dict) : dict :=
  match dict_get d "main" with
  | Some (PDict m) => m
  | _ => []
  end.

Definition well_shaped (d : dict) : bool :=
  weather_ok (dict_get d "weather")
  && object_or_absent (dict_get d "main")
  && object_or_absent (dict_get d "wind")
  && object_or_absent (dict_get d "sys")
  && object_or_absent (dict_get d "clouds")
  && forallb (fun k => temperature_ok (dict_get (main_of d) (fst k))) temperature_fields.

(** The formatter's result, given the sub-objects it read and the four
    converted temperatures. *)
Definition assemble (d weather main wind sys clouds : dict)
           (current_c feels_like_c min_c max_c : pyval) : pyval :=
  PDict
    [ ("city", or_null (dict_get d "name"));
      ("country", or_null (dict_get sys "country"));
      ("coordinates", or_null (dict_get d "coord"));
      ("conditions", PDict [ ("label", or_null (dict_get weather "main"));
                             ("description", or_null (dict_get weather "description"));
                             ("icon", or_null (dict_get weather "icon")) ]);
      ("temperature", PDict [ ("current_c", current_c);
                              ("feels_like_c", feels_like_c);
                              ("min_c", min_c);
                              ("max_c", max_c) ]);
      ("humidity", or_null (dict_get main "humidity"));
      ("pressure", or_null (dict_get main "pressure"));
      ("wind", PDict [ ("speed_mps", or_null (dict_get wind "speed"));
                       ("direction_deg", or_null (dict_get wind "deg"));
                       ("gust_mps", or_null (dict_get wind "gust")) ]);
      ("visibility_m", or_null (dict_get d "visibility"));
      ("cloud_cover_pct", or_null (dict_get clouds "all"));
      ("timestamp", or_null (dict_get d "dt"));
      ("timezone_offset_s", or_null (dict_get d "timezone"));
      ("source", PStr "openweathermap") ].

(** Further sample provider responses. *)
Definition payload_string_temp : dict :=
  [ ("main", PDict [ ("temp", PStr "283.15") ]) ].

Definition payload_int_temp : dict :=
  [ ("main", PDict [ ("temp", PInt 283); ("humidity", PInt 70) ]);
    ("weather", PList [ PDict [ ("main", PStr "Rain") ];
                        PDict [ ("main", PStr "Mist") ] ]);
    ("wind", PDict [ ("speed", PInt 4) ]);
    ("name", PStr "Oslo");
    ("sys", PDict [ ("country", PStr "NO") ]) ].

Definition geocoding_null_results : pyval := PDict [ ("results", PNone) ].


(** * Facts about binary64 rounding

    [round(x, 1)] can raise in CPython (reading the decimal string back can
    overflow).  It cannot for one digit after the point: a finite double is
    below [2^1024]; below [2^1023] rounding keeps a binade of room, and at or
    above it the double is an integer that reads back as itself. *)

Section FloatFacts.
Import Float.
Open Scope Z_scope.

Lemma digits2_pos_size p : digits2_pos p = Pos.size p.
Proof. induction p; simpl; congruence. Qed.

Lemma Zdigits2_log2 n : 0 < n -> Zdigits2 n = Z.log2 n + 1.
Proof.
  destruct n as [|p|p]; try lia. intros _. simpl.
  rewrite digits2_pos_size. destruct p; simpl; lia.
Qed.

Lemma Zdigits2_nonneg n : 0 <= Zdigits2 n.
Proof. destruct n; simpl; lia. Qed.

Lemma Zdigits2_le n b : 0 <= n -> 0 <= b -> n < 2 ^ b -> Zdigits2 n <= b.
Proof.
  intros Hn Hb H. destruct (Z.eq_dec n 0) as [->|Hz]; [simpl; lia|].
  rewrite Zdigits2_log2 by lia. apply Z.log2_lt_pow2 in H; lia.
Qed.

Lemma Zdigits2_upper n : 0 <= n -> n < 2 ^ Zdigits2 n.
Proof.
  intros Hn. destruct (Z.eq_dec n 0) as [->|Hz]; [simpl; lia|].
  rewrite Zdigits2_log2 by lia. apply Z.log2_spec. lia.
Qed.

Lemma Zdigits2_lower n : 0 < n -> 2 ^ (Zdigits2 n - 1) <= n.
Proof.
  intros Hn. rewrite Zdigits2_log2 by lia.
  replace (Z.log2 n + 1 - 1) with (Z.log2 n) by lia. apply Z.log2_spec. lia.
Qed.

Lemma fexp_eq k : fexp prec emax k = Z.max (k - 53) (-1074).
Proof. reflexivity. Qed.

Lemma shr_1_m mrs : 0 <= shr_m mrs -> shr_m (shr_1 mrs) = shr_m mrs / 2.
Proof.
  destruct mrs as [m r s]. simpl shr_m. intros Hm.
  destruct m as [|p|p]; [reflexivity| |lia].
  destruct p as [p|p|]; simpl shr_m.
  - apply Z.div_unique with (r := 1); lia.
  - apply Z.div_unique with (r := 0); lia.
  - reflexivity.
Qed.

Lemma pow2_xO p : 2 ^ Zpos p~0 = 2 ^ Zpos p * 2 ^ Zpos p.
Proof.
  rewrite (Pos2Z.inj_xO p). replace (2 * Zpos p) with (Zpos p + Zpos p) by lia.
  apply Z.pow_add_r; lia.
Qed.

Lemma pow2_xI p : 2 ^ Zpos p~1 = 2 * (2 ^ Zpos p * 2 ^ Zpos p).
Proof.
  rewrite (Pos2Z.inj_xI p).
  replace (2 * Zpos p + 1) with (1 + (Zpos p + Zpos p)) by lia.
  rewrite !Z.pow_add_r by lia. reflexivity.
Qed.

Lemma pow2_pos k : 0 < 2 ^ Zpos k.
Proof. apply Z.pow_pos_nonneg; lia. Qed.

Lemma iter_shr_1_m p :
  forall mrs, 0 <= shr_m mrs ->
              shr_m (iter_pos shr_1 p mrs) = shr_m mrs / 2 ^ Zpos p.
Proof.
  assert (Hnn : forall a b, 0 <= a -> 0 < b -> 0 <= a / b)
    by (intros; apply Z.div_pos; lia).
  induction p as [p IH|p IH|]; intros mrs Hm; cbn [iter_pos];
    try pose proof (pow2_pos p) as H2.
  - assert (A : 0 <= shr_m (shr_1 mrs)) by (rewrite shr_1_m by lia; apply Hnn; lia).
    assert (B : 0 <= shr_m (iter_pos shr_1 p (shr_1 mrs)))
      by (rewrite IH by lia; apply Hnn; lia).
    rewrite (IH _ B), (IH _ A), shr_1_m by lia.
    rewrite !Z.div_div by lia. now rewrite pow2_xI.
  - assert (B : 0 <= shr_m (iter_pos shr_1 p mrs))
      by (rewrite IH by lia; apply Hnn; lia).
    rewrite (IH _ B), (IH _ Hm).
    rewrite !Z.div_div by lia. now rewrite pow2_xO.
  - rewrite shr_1_m by lia. reflexivity.
Qed.

Lemma shr_1_exact k :
  0 <= k ->
  shr_1 (Build_shr_record (2 * k) false false) = Build_shr_record k false false.
Proof. destruct k as [|q|q]; [reflexivity|reflexivity|lia]. Qed.

Lemma iter_shr_1_exact p :
  forall k, 0 <= k ->
            iter_pos shr_1 p (Build_shr_record (2 ^ Zpos p * k) false false)
            = Build_shr_record k false false.
Proof.
  induction p as [p IH|p IH|]; intros k Hk; cbn [iter_pos];
    try pose proof (pow2_pos p) as H2.
  - rewrite pow2_xI.
    replace (2 * (2 ^ Zpos p * 2 ^ Zpos p) * k)
      with (2 * (2 ^ Zpos p * (2 ^ Zpos p * k))) by ring.
    rewrite shr_1_exact by nia. rewrite IH by nia. apply IH; lia.
  - rewrite pow2_xO.
    replace (2 ^ Zpos p * 2 ^ Zpos p * k)
      with (2 ^ Zpos p * (2 ^ Zpos p * k)) by ring.
    rewrite IH by nia. apply IH; lia.
  - change (2 ^ 1) with 2. apply shr_1_exact; lia.
Qed.

Lemma shr_m_of_loc m l : shr_m (shr_record_of_loc m l) = m.
Proof. destruct l as [|[| |]]; reflexivity. Qed.

Lemma shr_fexp_bounds M E l mrs e :
  0 <= M -> shr_fexp prec emax M E l = (mrs, e) ->
  0 <= shr_m mrs < 2 ^ 53 /\ e = Z.max E (Z.max (Zdigits2 M + E - 53) (-1074)).
Proof.
  intros HM. unfold shr_fexp, shr. rewrite fexp_eq.
  pose proof (Zdigits2_upper M HM) as Hup.
  pose proof (Zdigits2_nonneg M) as Hd.
  destruct (Z.max (Zdigits2 M + E - 53) (-1074) - E) as [|p|p] eqn:Hn;
    intros H; inversion H; subst; clear H; rewrite ?shr_m_of_loc.
  - split; [|lia]. split; [lia|].
    apply Z.lt_le_trans with (1 := Hup). apply Z.pow_le_mono_r; lia.
  - rewrite iter_shr_1_m by (rewrite shr_m_of_loc; lia). rewrite shr_m_of_loc.
    pose proof (pow2_pos p) as H2. split; [|lia]. split.
    + apply Z.div_pos; lia.
    + apply Z.div_lt_upper_bound; [lia|].
      rewrite <- Z.pow_add_r by lia.
      apply Z.lt_le_trans with (1 := Hup). apply Z.pow_le_mono_r; lia.
  - split; [|lia]. split; [lia|].
    apply Z.lt_le_trans with (1 := Hup). apply Z.pow_le_mono_r; lia.
Qed.

Lemma round_nearest_even_bounds m l :
  m <= round_nearest_even m l <= m + 1.
Proof.
  destruct l as [|[| |]]; simpl; try lia. destruct (Z.even m); lia.
Qed.

(** A finite result of the rounding step has at most 53 bits and an exponent
    within range. *)
Lemma binary_round_aux_finite s M E l s' m e :
  0 <= M -> binary_round_aux prec emax s M E l = S754_finite s' m e ->
  Zpos m < 2 ^ 53 /\ e <= 971.
Proof.
  intros HM. unfold binary_round_aux.
  destruct (shr_fexp prec emax M E l) as [mrs1 e1] eqn:H1.
  apply shr_fexp_bounds in H1; [|exact HM]. destruct H1 as [B1 _].
  pose proof (round_nearest_even_bounds (shr_m mrs1) (loc_of_shr_record mrs1)) as Hr.
  destruct (shr_fexp prec emax _ e1 loc_Exact) as [mrs2 e2] eqn:H2.
  apply shr_fexp_bounds in H2; [|lia]. destruct H2 as [B2 _].
  destruct (shr_m mrs2) as [|p|p]; try discriminate.
  change (emax - prec) with 971.
  destruct (e2 <=? 971) eqn:Hle; try discriminate.
  intros H; inversion H; subst. apply Z.leb_le in Hle. lia.
Qed.

(** The rounding step does not overflow on a value below [2^1023]. *)
Lemma binary_round_aux_no_overflow s M E l s' :
  0 <= M -> E <= 970 -> Zdigits2 M + E <= 1023 ->
  binary_round_aux prec emax s M E l <> S754_infinity s'.
Proof.
  intros HM HE HD. unfold binary_round_aux.
  destruct (shr_fexp prec emax M E l) as [mrs1 e1] eqn:H1.
  apply shr_fexp_bounds in H1; [|exact HM]. destruct H1 as [B1 He1].
  pose proof (round_nearest_even_bounds (shr_m mrs1) (loc_of_shr_record mrs1)) as Hr.
  set (M1 := round_nearest_even _ _) in *.
  assert (HD1 : Zdigits2 M1 <= 54).
  { apply Zdigits2_le; lia. }
  destruct (shr_fexp prec emax M1 e1 loc_Exact) as [mrs2 e2] eqn:H2.
  apply shr_fexp_bounds in H2; [|lia]. destruct H2 as [B2 He2].
  destruct (shr_m mrs2) as [|p|p]; try discriminate.
  change (emax - prec) with 971.
  destruct (e2 <=? 971) eqn:Hle; try discriminate.
  apply Z.leb_gt in Hle. lia.
Qed.

Lemma SFdiv_core_10 q :
  0 < q ->
  let e' := Z.min (Z.max (Zdigits2 q - 57) (-1074)) 0 in
  SFdiv_core_binary prec emax q 0 10 0
  = (q * 2 ^ (- e') / 10, e', new_location 10 (q * 2 ^ (- e') mod 10)).
Proof.
  intros Hq e'. unfold SFdiv_core_binary. rewrite fexp_eq.
  change (Zdigits2 10) with 4. change (0 - 0) with 0.
  replace (Zdigits2 q + 0 - (4 + 0) - 53) with (Zdigits2 q - 57) by lia.
  fold e'. cbv zeta.
  assert (He : e' <= 0) by (unfold e'; lia).
  assert (Hm : match 0 - e' with
               | 0 => q
               | Z.pos _ => IntDef.Z.shiftl q (0 - e')
               | Z.neg _ => 0
               end = q * 2 ^ (- e')).
  { replace (0 - e') with (- e') by lia.
    destruct (- e') as [|p|p] eqn:Hp; [change (2 ^ 0) with 1; lia| |lia].
    change IntDef.Z.shiftl with Z.shiftl. apply Z.shiftl_mul_pow2. lia. }
  rewrite Hm. change IntDef.Z.div_eucl with Z.div_eucl.
  unfold Z.div, Z.modulo. destruct (Z.div_eucl (q * 2 ^ (- e')) 10). reflexivity.
Qed.

(** Reading back a decimal with one digit after the point does not overflow
    when the value is below [2^1023]. *)
Lemma of_fraction_no_overflow s q B s' :
  0 <= q -> 0 <= B <= 1023 -> q < 10 * 2 ^ B ->
  of_fraction s q 10 <> S754_infinity s'.
Proof.
  intros Hq HB Hlt. unfold of_fraction.
  destruct (Z.eq_dec q 0) as [->|Hz]; [discriminate|].
  assert (Hq' : 0 < q) by lia.
  pose proof (SFdiv_core_10 q Hq') as Hc. cbv zeta in Hc.
  set (e' := Z.min (Z.max (Zdigits2 q - 57) (-1074)) 0) in *.
  assert (He : e' <= 0) by (unfold e'; lia).
  destruct q as [|q0|q0]; try lia. rewrite Hc.
  assert (H2 : 0 < 2 ^ (- e')) by (apply Z.pow_pos_nonneg; lia).
  assert (HQ0 : 0 <= Zpos q0 * 2 ^ (- e') / 10) by (apply Z.div_pos; nia).
  apply binary_round_aux_no_overflow; [exact HQ0|lia|].
  assert (Zdigits2 (Zpos q0 * 2 ^ (- e') / 10) <= B + - e'); [|lia].
  apply Zdigits2_le; [exact HQ0|lia|].
  apply Z.div_lt_upper_bound; [lia|].
  rewrite Z.pow_add_r by lia. nia.
Qed.

Lemma Zdigits2_exact n b :
  0 <= b -> 2 ^ b <= n < 2 ^ (b + 1) -> Zdigits2 n = b + 1.
Proof.
  intros Hb H. assert (0 < 2 ^ b) by (apply Z.pow_pos_nonneg; lia).
  rewrite Zdigits2_log2 by lia. f_equal. apply Z.log2_unique; [lia|].
  replace (Z.succ b) with (b + 1) by lia. exact H.
Qed.

(** A double of full precision with a positive exponent is an integer; its
    decimal string with one digit reads back as the same double. *)
Lemma of_fraction_exact s m e :
  2 ^ 52 <= Zpos m < 2 ^ 53 -> 1 <= e <= 971 ->
  of_fraction s (10 * Zpos m * 2 ^ e) 10 = S754_finite s m e.
Proof.
  intros Hm He.
  assert (H2e : 2 <= 2 ^ e).
  { change 2 with (2 ^ 1) at 1. apply Z.pow_le_mono_r; lia. }
  set (q := 10 * Zpos m * 2 ^ e).
  assert (Hq : 2 ^ 56 <= q) by (unfold q; change (2 ^ 56) with (16 * 2 ^ 52); nia).
  assert (Hq0 : 0 < q) by lia.
  assert (HD : 57 <= Zdigits2 q).
  { pose proof (Zdigits2_upper q ltac:(lia)) as Hup.
    pose proof (Zdigits2_nonneg q).
    assert (2 ^ 56 < 2 ^ Zdigits2 q) as Hlt by lia.
    apply Z.pow_lt_mono_r_iff in Hlt; lia. }
  unfold of_fraction.
  pose proof (SFdiv_core_10 q Hq0) as Hc. cbv zeta in Hc.
  replace (Z.min (Z.max (Zdigits2 q - 57) (-1074)) 0) with 0 in Hc by lia.
  change (2 ^ (- 0)) with 1 in Hc. rewrite Z.mul_1_r in Hc.
  assert (Hdiv : q / 10 = 2 ^ e * Zpos m).
  { unfold q. replace (10 * Zpos m * 2 ^ e) with (2 ^ e * Zpos m * 10) by ring.
    apply Z.div_mul. lia. }
  assert (Hmod : q mod 10 = 0).
  { unfold q. replace (10 * Zpos m * 2 ^ e) with (2 ^ e * Zpos m * 10) by ring.
    apply Z.mod_mul. lia. }
  rewrite Hdiv, Hmod in Hc. change (new_location 10 0) with loc_Exact in Hc.
  destruct q as [|q0|q0]; try lia. rewrite Hc. clear Hc.
  assert (HDm : Zdigits2 (Zpos m) = 53).
  { apply (Zdigits2_exact (Zpos m) 52); [lia|exact Hm]. }
  assert (HDv : Zdigits2 (2 ^ e * Zpos m) = 53 + e).
  { replace (53 + e) with (52 + e + 1) by lia. apply Zdigits2_exact; [lia|].
    replace (52 + e + 1) with (53 + e) by lia.
    rewrite !Z.pow_add_r by lia. nia. }
  unfold binary_round_aux, shr_fexp. rewrite fexp_eq, HDv.
  replace (Z.max (53 + e + 0 - 53) (-1074) - 0) with e by lia.
  destruct e as [|p|p]; try lia.
  cbn [shr shr_record_of_loc]. rewrite iter_shr_1_exact by lia.
  cbn [shr_m loc_of_shr_record round_nearest_even]. rewrite fexp_eq, HDm.
  replace (Z.max (53 + (0 + Zpos p) - 53) (-1074) - (0 + Zpos p)) with 0 by lia.
  cbn [shr shr_record_of_loc shr_m]. change (emax - prec) with 971.
  replace (0 + Zpos p <=? 971) with true by (symmetry; apply Z.leb_le; lia).
  reflexivity.
Qed.

Lemma round_half_even_div_bounds n d :
  0 <= n -> 0 < d -> 0 <= round_half_even_div n d <= n / d + 1.
Proof.
  intros Hn Hd. unfold round_half_even_div.
  assert (0 <= n / d) by (apply Z.div_pos; lia).
  destruct (2 * (n mod d) ?= d); try lia. destruct (Z.even (n / d)); lia.
Qed.

Lemma tenths_neg_bounds m p : 0 <= tenths m (Zneg p) <= 10 * Zpos m.
Proof.
  unfold tenths. pose proof (pow2_pos p) as H2.
  pose proof (round_half_even_div_bounds (10 * Zpos m) (2 ^ Zpos p) ltac:(lia) H2) as Hb.
  assert (2 <= 2 ^ Zpos p).
  { change 2 with (2 ^ 1) at 1. apply Z.pow_le_mono_r; lia. }
  assert (10 * Zpos m / 2 ^ Zpos p <= 5 * Zpos m); [|lia].
  apply Z.div_le_upper_bound; [lia|]. nia.
Qed.

(** [round(x, 1)] returns on every double: the finite results of the
    arithmetic operations have at most 53 bits and an exponent at most 971. *)
Lemma round1_total s m e :
  Zpos m < 2 ^ 53 -> e <= 971 -> exists r, round1 (S754_finite s m e) = Ok r.
Proof.
  intros Hm He. unfold round1.
  assert (Hno : forall s', of_fraction s (tenths m e) 10 <> S754_infinity s').
  { intros s'. destruct e as [|p|p].
    - apply of_fraction_no_overflow with (B := 53); unfold tenths; lia.
    - destruct (Z_lt_le_dec (Zpos m) (2 ^ 52)) as [Hlt|Hge].
      + pose proof (pow2_pos p) as H2.
        apply of_fraction_no_overflow with (B := 52 + Zpos p); unfold tenths; try lia.
        rewrite Z.pow_add_r by lia. nia.
      + unfold tenths. rewrite of_fraction_exact by lia. discriminate.
    - pose proof (tenths_neg_bounds m p).
      apply of_fraction_no_overflow with (B := 53); lia. }
  destruct (of_fraction s (tenths m e) 10) as [z|i| |s0 m0 e0] eqn:Hr; eauto.
  exfalso. exact (Hno i eq_refl).
Qed.

End FloatFacts.
(** * The model of [round] on known values *)

(** Exact ties go to the even digit; a double just below a tie goes down;
    the sign of a result that rounds to zero is kept. *)
Example round1_tie_down :
  Float.round1 (Float.of_decimal false 25 2) = Ok (Float.of_decimal false 2 1).
Proof. vm_compute. reflexivity. Qed.

Example round1_tie_up :
  Float.round1 (Float.of_decimal false 75 2) = Ok (Float.of_decimal false 8 1).
Proof. vm_compute. reflexivity. Qed.

Example round1_below_tie :
  Float.round1 (Float.of_decimal false 35 2) = Ok (Float.of_decimal false 3 1).
Proof. vm_compute. reflexivity. Qed.

Example round1_negative_zero :
  Float.round1 (Float.of_decimal true 4 2) = Ok (S754_zero true).
Proof. vm_compute. reflexivity. Qed.

Example round1_largest :
  Float.round1 (SFmax_float Float.prec Float.emax)
  = Ok (SFmax_float Float.prec Float.emax).
Proof. vm_compute. reflexivity. Qed.

Example of_int_overflow :
  Float.of_int (2 ^ 1024)
  = Raise (mk_exc OverflowError "int too large to convert to float").
Proof. vm_compute. reflexivity. Qed.

(** * The unit converter *)

Lemma kelvin_offset_eq : kelvin_offset = S754_finite false 4805305618032230 (-44).
Proof. vm_compute. reflexivity. Qed.

Lemma binary_normalize_finite z E szero s m e :
  binary_normalize Float.prec Float.emax z E szero = S754_finite s m e ->
  Zpos m < 2 ^ 53 /\ e <= 971.
Proof.
  unfold binary_normalize, binary_round.
  destruct z as [|p|p]; try discriminate;
    destruct (shl_align p E _) as [mz ez];
    apply binary_round_aux_finite; lia.
Qed.

(** Whatever is subtracted from, [value - 273.15] is NaN, infinite, zero, or
    a finite double of at most 53 bits with an exponent at most 971. *)
Lemma sub_kelvin_offset_finite v s m e :
  Float.sub v kelvin_offset = S754_finite s m e -> Zpos m < 2 ^ 53 /\ e <= 971.
Proof.
  rewrite kelvin_offset_eq. unfold Float.sub, SFsub.
  destruct v as [sv|sv| |sv mv ev]; try discriminate.
  - intros H; inversion H; subst. lia.
  - apply binary_normalize_finite.
Qed.

Lemma round1_sub_total v : exists r, Float.round1 (Float.sub v kelvin_offset) = Ok r.
Proof.
  destruct (Float.sub v kelvin_offset) as [s|s| |s m e] eqn:Hs;
    try (eexists; reflexivity).
  apply sub_kelvin_offset_finite in Hs. apply round1_total; lia.
Qed.

(** C2.  [convert_kelvin_to_celsius] computes [round(value - 273.15, 1)] and
    returns on every float ([round] never raises here, and neither does the
    subtraction): NaN and the infinities included.  [273.15] gives [0.0],
    [0] (the int and the float) gives [-273.1], and [300] gives [26.9]. *)
Theorem convert_kelvin_to_celsius_total :
  (forall v : spec_float,
      exists r, Float.round1 (Float.sub v (Float.of_decimal false 27315 2)) = Ok r
                /\ convert_kelvin_to_celsius (PFloat v) = Ok (PFloat r))
  /\ convert_kelvin_to_celsius (PFloat (Float.of_decimal false 27315 2))
     = Ok (PFloat float_0_0)
  /\ convert_kelvin_to_celsius (PInt 0) = Ok (PFloat float_minus_273_1)
  /\ convert_kelvin_to_celsius (PFloat float_0_0) = Ok (PFloat float_minus_273_1)
  /\ convert_kelvin_to_celsius (PInt 300) = Ok (PFloat float_26_9)
  /\ convert_kelvin_to_celsius (PFloat float_300_0) = Ok (PFloat float_26_9).
Proof.
  split; [|repeat split; vm_compute; reflexivity].
  intros v. destruct (round1_sub_total v) as [r Hr]. exists r. split.
  - exact Hr.
  - unfold convert_kelvin_to_celsius, py_sub_float. cbn [bind].
    rewrite Hr. reflexivity.
Qed.

(** * The response formatter *)

(** Running a sequence of binds that returned: each step returned. *)
Ltac step_bind H :=
  match type of H with
  | bind ?r _ = Ok _ =>
      let E := fresh "E" in
      destruct r eqn:E; cbn [bind] in H; [|discriminate H]
  end.

Lemma formatter_ok_body payload out :
  formatter payload = Ok out -> formatter_body payload = Ok out.
Proof.
  unfold formatter. destruct (formatter_body payload); [congruence|discriminate].
Qed.

Lemma formatter_raise_body payload e :
  formatter_body payload = Raise e ->
  formatter payload = Raise (mk_http 500 ("Data formatting error: " ++ exc_str e)).
Proof. unfold formatter. intros ->. reflexivity. Qed.

Lemma convert_default :
  convert_kelvin_to_celsius (PInt 0) = Ok (PFloat float_minus_273_1).
Proof. vm_compute. reflexivity. Qed.

(** C4.  When a temperature key is absent from [main] (the [main] object of
    the payload, or the empty object that stands in for a missing one), the
    value converted is the default [0], whose conversion is [-273.1]; every
    result the formatter returns then holds [-273.1], not null, in the
    corresponding output field. *)
Theorem formatter_absent_temperature :
  forall (payload : pyval) (main : dict) (src dst : string) (out : pyval),
    py_get payload "main" (PDict []) = Ok (PDict main) ->
    In (src, dst) temperature_fields ->
    dict_get main src = None ->
    formatter payload = Ok out ->
    py_get (PDict main) src (PInt 0) = Ok (PInt 0)
    /\ convert_kelvin_to_celsius (PInt 0) = Ok (PFloat float_minus_273_1)
    /\ convert_kelvin_to_celsius (PFloat float_0_0) = Ok (PFloat float_minus_273_1)
    /\ field2 out "temperature" dst = Some (PFloat float_minus_273_1).
Proof.
  intros payload main src dst out Hmain Hin Hsrc Hfmt.
  split; [unfold py_get; rewrite Hsrc; reflexivity|].
  split; [exact convert_default|].
  split; [vm_compute; reflexivity|].
  apply formatter_ok_body in Hfmt. unfold formatter_body in Hfmt.
  repeat step_bind Hfmt. inversion Hfmt; subst out; clear Hfmt.
  inversion Hmain; subst; clear Hmain.
  assert (Hdef : forall t c, py_get (PDict main) src (PInt 0) = Ok t ->
                             convert_kelvin_to_celsius t = Ok c ->
                             c = PFloat float_minus_273_1).
  { intros t c Ht Hc. unfold py_get in Ht. rewrite Hsrc in Ht.
    inversion Ht; subst t. rewrite convert_default in Hc. congruence. }
  unfold temperature_fields in Hin. cbn [In] in Hin.
  destruct Hin as [H|[H|[H|[H|[]]]]]; inversion H; subst src dst; clear H;
    unfold field2, field; cbn [dict_get String.eqb Ascii.eqb Bool.eqb];
    cbn; f_equal; eapply Hdef; eassumption.
Qed.

Lemma formatter_absent_temperature_witness :
  exists out : pyval,
    formatter payload_without_temp = Ok out
    /\ field2 out "temperature" "current_c" = Some (PFloat float_minus_273_1)
    /\ field out "humidity" = Some (PInt 70).
Proof.
  evar (f : pyval).
  assert (Hf : formatter payload_without_temp = Ok f)
    by (subst f; vm_compute; reflexivity).
  exists f. split; [exact Hf|].
  destruct (formatter_absent_temperature
              payload_without_temp [ ("humidity", PInt 70) ] "temp" "current_c" f
              eq_refl (or_introl eq_refl) eq_refl Hf) as [_ [_ [_ H]]].
  split; [exact H|]. subst f. reflexivity.
Defined.

(** C1.  A payload whose ["weather"] key holds an empty list is not
    formatted: the default [[{}]] stands in for a missing key only, so
    [[][0]] raises IndexError and the formatter answers with a 500. *)
Theorem formatter_empty_weather_fails :
  forall d : dict,
    dict_get d "weather" = Some (PList []) ->
    formatter (PDict d)
    = Raise (mk_http 500 "Data formatting error: list index out of range").
Proof.
  intros d H. unfold formatter, formatter_body. cbn [py_get]. rewrite H.
  reflexivity.
Qed.

Lemma formatter_empty_weather_example :
  dict_get [ ("weather", PList []) ] "weather" = Some (PList [])
  /\ formatter (PDict [ ("weather", PList []) ])
     = Raise (mk_http 500 "Data formatting error: list index out of range").
Proof.
  split; [reflexivity|].
  apply (formatter_empty_weather_fails [ ("weather", PList []) ]). reflexivity.
Defined.

(** A payload without ["weather"] does get the empty conditions. *)
Lemma formatter_absent_weather :
  forall (d : dict) (out : pyval),
    dict_get d "weather" = None ->
    formatter (PDict d) = Ok out ->
    field out "conditions" = Some null_conditions.
Proof.
  intros d out Hw H. apply formatter_ok_body in H.
  unfold formatter_body in H. cbn [py_get] in H. rewrite Hw in H.
  cbn [bind py_getitem_0 py_get dict_get] in H.
  repeat step_bind H. inversion H; subst out. reflexivity.
Qed.

(** C5, as stated, fails: a payload without ["wind"] is not always
    formatted.  [{"main": null}] has no ["wind"], and the formatter raises on
    [main.get]; so "every payload without wind is formatted, with null wind
    fields" does not hold. *)
Lemma formatter_missing_wind_can_fail :
  dict_get [ ("main", PNone) ] "wind" = None
  /\ formatter (PDict [ ("main", PNone) ])
     = Raise (mk_http 500
                "Data formatting error: 'NoneType' object has no attribute 'get'")
  /\ ~ (forall d : dict,
          dict_get d "wind" = None ->
          exists out, formatter (PDict d) = Ok out
                      /\ field out "wind" = Some null_wind).
Proof.
  split; [reflexivity|]. split; [reflexivity|].
  intros H. destruct (H [ ("main", PNone) ] eq_refl) as [out [Hout _]].
  vm_compute in Hout. discriminate Hout.
Qed.

(** C5, amended.  A missing ["wind"] key is read as the empty object and is
    never what makes the formatter fail: every result it returns has the three
    wind fields null, and it returns whenever it returns on the same payload
    with some ["wind"] entry added. *)
Theorem formatter_missing_wind :
  forall d : dict,
    dict_get d "wind" = None ->
    py_get (PDict d) "wind" (PDict []) = Ok (PDict [])
    /\ (forall out, formatter (PDict d) = Ok out -> field out "wind" = Some null_wind)
    /\ (forall w out',
           formatter (PDict (("wind", w) :: d)) = Ok out' ->
           exists out, formatter (PDict d) = Ok out).
Proof.
  intros d Hwind. split; [|split].
  - unfold py_get. rewrite Hwind. reflexivity.
  - intros out H. apply formatter_ok_body in H. unfold formatter_body in H.
    cbn [py_get] in H.
    repeat (first [rewrite Hwind in H | step_bind H];
            cbn [bind py_get dict_get] in H).
    inversion H; subst out. reflexivity.
  - intros w out' H. apply formatter_ok_body in H.
    enough (exists out, formatter_body (PDict d) = Ok out) as [out Ho]
        by (exists out; unfold formatter; rewrite Ho; reflexivity).
    unfold formatter_body in *.
    cbn [py_get dict_get String.eqb Ascii.eqb Bool.eqb andb] in H |- *.
    repeat (first [rewrite Hwind | step_bind H];
            cbn [bind py_get dict_get] in H |- *).
    eexists. reflexivity.
Qed.

Lemma formatter_missing_wind_witness :
  dict_get payload_without_wind "wind" = None
  /\ exists out : pyval,
      formatter (PDict payload_without_wind) = Ok out
      /\ field out "wind" = Some null_wind.
Proof.
  split; [reflexivity|].
  destruct (formatter_missing_wind payload_without_wind eq_refl) as [_ [H _]].
  evar (f : pyval).
  assert (Hf : formatter (PDict payload_without_wind) = Ok f)
    by (subst f; vm_compute; reflexivity).
  exists f. split; [exact Hf|exact (H f Hf)].
Defined.

(** * The geocoding client *)

Section Geocoding.

Variable geoapify : string -> result pyexc pyval.

Lemma convert_of_body_raise city e :
  convert_cityname_to_coordinate_body geoapify city = Raise e ->
  exc_class_of e <> RequestException ->
  convert_cityname_to_coordinate geoapify city = Raise (mk_http 500 (exc_str e)).
Proof.
  intros Hb Hc. unfold convert_cityname_to_coordinate. rewrite Hb.
  destruct (exc_class_of e); try reflexivity. congruence.
Qed.


Lemma body_not_found city d :
  geoapify city = Ok (PDict d) ->
  dict_get d "results" = None \/ dict_get d "results" = Some (PList []) ->
  convert_cityname_to_coordinate_body geoapify city
  = Raise (mk_exc ValueError (not_found_message city)).
Proof.
  intros Hgeo Hres. unfold convert_cityname_to_coordinate_body.
  rewrite Hgeo. cbn [bind py_get].
  destruct Hres as [H|H]; rewrite H; reflexivity.
Qed.

Lemma body_first_result city d first rest :
  geoapify city = Ok (PDict d) ->
  dict_get d "results" = Some (PList (PDict first :: rest)) ->
  convert_cityname_to_coordinate_body geoapify city
  = (lon <- py_getitem (PDict first) "lon" ;;
     lat <- py_getitem (PDict first) "lat" ;;
     Ok (lat, lon)).
Proof.
  intros Hgeo Hres. unfold convert_cityname_to_coordinate_body.
  rewrite Hgeo. cbn [bind py_get py_getitem]. rewrite Hres.
  cbn [bind py_truthy negb py_getitem py_len List.length].
  replace (Z.eqb (Z.of_nat (S (List.length rest))) 0) with false
    by (symmetry; apply Z.eqb_neq; lia).
  cbn [bind py_getitem_0 py_getitem]. reflexivity.
Qed.

Lemma convert_first_result city d first rest lat lon :
  geoapify city = Ok (PDict d) ->
  dict_get d "results" = Some (PList (PDict first :: rest)) ->
  dict_get first "lat" = Some lat ->
  dict_get first "lon" = Some lon ->
  convert_cityname_to_coordinate geoapify city = Ok (lat, lon).
Proof.
  intros Hgeo Hres Hlat Hlon. unfold convert_cityname_to_coordinate.
  rewrite (body_first_result city d first rest Hgeo Hres).
  cbn [py_getitem]. rewrite Hlon, Hlat. reflexivity.
Qed.

End Geocoding.

(** * The endpoint *)

Section Endpoint.

Variable geoapify : string -> result pyexc pyval.
Variable openweathermap : pyval -> pyval -> result pyexc pyval.

Lemma weather_of_convert_raise city h :
  convert_cityname_to_coordinate geoapify city = Raise h ->
  weather geoapify openweathermap city = Raise h.
Proof.
  intros H. unfold weather, weather_body. rewrite H. reflexivity.
Qed.

Lemma weather_of_formatter_raise city lat lon payload h :
  convert_cityname_to_coordinate geoapify city = Ok (lat, lon) ->
  openweathermap lat lon = Ok payload ->
  formatter payload = Raise h ->
  weather geoapify openweathermap city = Raise h.
Proof.
  intros Hc Hw Hf. unfold weather, weather_body, weather_info.
  rewrite Hc. cbn [lift_http bind]. rewrite Hw. cbn [lift_http bind].
  rewrite Hf. reflexivity.
Qed.

Lemma weather_of_formatter_ok city lat lon payload formatted :
  convert_cityname_to_coordinate geoapify city = Ok (lat, lon) ->
  openweathermap lat lon = Ok payload ->
  formatter payload = Ok (PDict formatted) ->
  weather geoapify openweathermap city
  = Ok (PDict (dict_set formatted "input_city" (PStr city))).
Proof.
  intros Hc Hw Hf. unfold weather, weather_body, weather_info.
  rewrite Hc. cbn [lift_http bind]. rewrite Hw. cbn [lift_http bind].
  rewrite Hf. reflexivity.
Qed.




End Endpoint.

(** * The claims on the geocoding client and the endpoint *)

(** C3.  When the geocoding provider answers with an object whose
    ["results"] is missing or an empty list, the client raises the not-found
    ValueError for the requested city; its generic handler turns it into a
    500 whose detail is the message naming the city, and the endpoint
    re-raises it unchanged. *)
Theorem unknown_city_not_found :
  forall geoapify openweathermap (city : string) (d : dict),
    geoapify city = Ok (PDict d) ->
    dict_get d "results" = None \/ dict_get d "results" = Some (PList []) ->
    convert_cityname_to_coordinate_body geoapify city
    = Raise (mk_exc ValueError ("City '" ++ city ++ "' not found in geocoding results"))
    /\ convert_cityname_to_coordinate geoapify city
       = Raise (mk_http 500 ("City '" ++ city ++ "' not found in geocoding results"))
    /\ respond (weather geoapify openweathermap city)
       = (500, PDict [ ("detail",
                        PStr ("City '" ++ city ++ "' not found in geocoding results")) ]).
Proof.
  intros geoapify openweathermap city d Hgeo Hres.
  pose proof (body_not_found geoapify city d Hgeo Hres) as Hb.
  pose proof (convert_of_body_raise geoapify city _ Hb ltac:(discriminate)) as Hc.
  split; [exact Hb|]. split; [exact Hc|].
  rewrite (weather_of_convert_raise geoapify openweathermap city _ Hc).
  reflexivity.
Qed.

Lemma unknown_city_not_found_witness :
  respond (weather (geocoding_always (Ok geocoding_no_results))
                   (weather_always (Ok london_payload)) "Atlantis")
  = (500, PDict [ ("detail", PStr "City 'Atlantis' not found in geocoding results") ]).
Proof.
  apply (unknown_city_not_found
           (geocoding_always (Ok geocoding_no_results))
           (weather_always (Ok london_payload))
           "Atlantis" [ ("results", PList []) ]).
  - reflexivity.
  - right. reflexivity.
Defined.

(** C6.  When the first geocoding result is an object with ["lat"] and
    ["lon"], the client returns exactly that pair, whatever results follow. *)
Theorem first_result_only :
  forall geoapify (city : string) (d first : dict) (rest : list pyval)
         (lat lon : pyval),
    geoapify city = Ok (PDict d) ->
    dict_get d "results" = Some (PList (PDict first :: rest)) ->
    dict_get first "lat" = Some lat ->
    dict_get first "lon" = Some lon ->
    convert_cityname_to_coordinate geoapify city = Ok (lat, lon).
Proof.
  intros geoapify city d first rest lat lon.
  apply convert_first_result.
Qed.

Lemma first_result_only_witness :
  convert_cityname_to_coordinate (geocoding_always (Ok geocoding_two_results)) "London"
  = Ok (london_lat, london_lon).
Proof.
  apply (first_result_only
           (geocoding_always (Ok geocoding_two_results)) "London"
           [ ("results", PList [ PDict [ ("lat", london_lat); ("lon", london_lon) ];
                                 PDict [ ("lat", PInt 42); ("lon", PInt (-83)) ] ]) ]
           [ ("lat", london_lat); ("lon", london_lon) ]
           [ PDict [ ("lat", PInt 42); ("lon", PInt (-83)) ] ]);
    reflexivity.
Defined.

(** C10.  When the first geocoding result is an object without ["lon"] or
    without ["lat"], the lookup raises KeyError (not the not-found ValueError,
    not a RequestException); the generic handler answers with a 500 whose
    detail is [str] of the KeyError, the quoted name of the missing key and
    nothing else.  ["lon"] is read first. *)
Theorem missing_coordinate_key :
  forall geoapify openweathermap (city : string) (d first : dict)
         (rest : list pyval),
    geoapify city = Ok (PDict d) ->
    dict_get d "results" = Some (PList (PDict first :: rest)) ->
    dict_get first "lon" = None \/ dict_get first "lat" = None ->
    exists key : string,
      (key = "lon" \/ key = "lat")
      /\ dict_get first key = None
      /\ convert_cityname_to_coordinate_body geoapify city
         = Raise (mk_exc KeyError ("'" ++ key ++ "'"))
      /\ convert_cityname_to_coordinate geoapify city
         = Raise (mk_http 500 ("'" ++ key ++ "'"))
      /\ respond (weather geoapify openweathermap city)
         = (500, PDict [ ("detail", PStr ("'" ++ key ++ "'")) ]).
Proof.
  intros geoapify openweathermap city d first rest Hgeo Hres Hmiss.
  pose proof (body_first_result geoapify city d first rest Hgeo Hres) as Hb.
  cbn [py_getitem] in Hb.
  assert (Hkey : exists key,
             (key = "lon" \/ key = "lat") /\ dict_get first key = None
             /\ convert_cityname_to_coordinate_body geoapify city
                = Raise (mk_exc KeyError ("'" ++ key ++ "'"))).
  { destruct (dict_get first "lon") as [lon|] eqn:Hlon.
    - destruct Hmiss as [Hm|Hm]; [discriminate|].
      exists "lat". rewrite Hm in Hb. auto.
    - exists "lon". auto. }
  destruct Hkey as [key [Hk [Hnone Hraise]]].
  pose proof (convert_of_body_raise geoapify city _ Hraise ltac:(discriminate)) as Hc.
  exists key. repeat split; try assumption.
  rewrite (weather_of_convert_raise geoapify openweathermap city _ Hc).
  reflexivity.
Qed.

Lemma missing_coordinate_key_witness :
  exists key : string,
    (key = "lon" \/ key = "lat")
    /\ dict_get [ ("lat", london_lat) ] key = None
    /\ convert_cityname_to_coordinate_body
         (geocoding_always (Ok geocoding_without_lon)) "London"
       = Raise (mk_exc KeyError ("'" ++ key ++ "'"))
    /\ convert_cityname_to_coordinate
         (geocoding_always (Ok geocoding_without_lon)) "London"
       = Raise (mk_http 500 ("'" ++ key ++ "'"))
    /\ respond (weather (geocoding_always (Ok geocoding_without_lon))
                        (weather_always (Ok london_payload)) "London")
       = (500, PDict [ ("detail", PStr ("'" ++ key ++ "'")) ]).
Proof.
  apply (missing_coordinate_key
           (geocoding_always (Ok geocoding_without_lon))
           (weather_always (Ok london_payload)) "London"
           [ ("results", PList [ PDict [ ("lat", london_lat) ] ]) ]
           [ ("lat", london_lat) ] []).
  - reflexivity.
  - reflexivity.
  - left. reflexivity.
Defined.





(** C8.  London, end to end: with the geocoding response
    [{results: [{lat: 51.51, lon: -0.13}]}] and the weather payload of the
    example for those coordinates, the endpoint returns the formatted payload
    with ["input_city"] added to it afterwards; the result has
    [temperature.current_c = 10.0], [city = "London"] and
    [input_city = "London"]. *)
Theorem weather_london :
  forall geoapify openweathermap,
    geoapify "London" = Ok london_geocoding ->
    openweathermap london_lat london_lon = Ok london_payload ->
    exists formatted out : pyval,
      formatter london_payload = Ok formatted
      /\ field formatted "input_city" = None
      /\ py_setitem formatted "input_city" (PStr "London") = Ok out
      /\ weather geoapify openweathermap "London" = Ok out
      /\ field2 out "temperature" "current_c" = Some (PFloat float_10_0)
      /\ field out "city" = Some (PStr "London")
      /\ field out "input_city" = Some (PStr "London").
Proof.
  intros geoapify openweathermap Hgeo Hw.
  assert (Hc : convert_cityname_to_coordinate geoapify "London"
               = Ok (london_lat, london_lon)).
  { apply (convert_first_result geoapify "London"
             [ ("results", PList [ PDict [ ("lat", london_lat); ("lon", london_lon) ] ]) ]
             [ ("lat", london_lat); ("lon", london_lon) ] []);
      [exact Hgeo|reflexivity..]. }
  evar (f : dict).
  assert (Hf : formatter london_payload = Ok (PDict f))
    by (subst f; vm_compute; reflexivity).
  exists (PDict f), (PDict (dict_set f "input_city" (PStr "London"))).
  split; [exact Hf|].
  split; [subst f; vm_compute; reflexivity|].
  split; [reflexivity|].
  split; [exact (weather_of_formatter_ok geoapify openweathermap "London"
                   london_lat london_lon london_payload f Hc Hw Hf)|].
  subst f. repeat split; vm_compute; reflexivity.
Qed.

Lemma weather_london_witness :
  exists formatted out : pyval,
    formatter london_payload = Ok formatted
    /\ field formatted "input_city" = None
    /\ py_setitem formatted "input_city" (PStr "London") = Ok out
    /\ weather (geocoding_always (Ok london_geocoding)) weather_london_only "London"
       = Ok out
    /\ field2 out "temperature" "current_c" = Some (PFloat float_10_0)
    /\ field out "city" = Some (PStr "London")
    /\ field out "input_city" = Some (PStr "London").
Proof.
  apply (weather_london (geocoding_always (Ok london_geocoding)) weather_london_only).
  - reflexivity.
  - vm_compute. reflexivity.
Defined.

(** C9.  A temperature key of [main] that is present with the value null is
    not defaulted: [get] returns the null, the subtraction raises TypeError,
    and the formatter, on that payload, answers with a 500 whose detail starts
    with "Data formatting error: "; so does the endpoint when that payload
    is what the weather provider returned. *)
Theorem formatter_null_temperature_fails :
  forall (d main : dict) (src dst : string),
    dict_get d "main" = Some (PDict main) ->
    In (src, dst) temperature_fields ->
    dict_get main src = Some PNone ->
    py_get (PDict main) src (PInt 0) = Ok PNone
    /\ convert_kelvin_to_celsius PNone
       = Raise (mk_exc TypeError "unsupported operand type(s) for -: 'NoneType' and 'float'")
    /\ exists msg : string,
        formatter (PDict d) = Raise (mk_http 500 ("Data formatting error: " ++ msg))
        /\ forall geoapify openweathermap (city : string) (lat lon : pyval),
            convert_cityname_to_coordinate geoapify city = Ok (lat, lon) ->
            openweathermap lat lon = Ok (PDict d) ->
            respond (weather geoapify openweathermap city)
            = (500, PDict [ ("detail", PStr ("Data formatting error: " ++ msg)) ]).
Proof.
  intros d main src dst Hmain Hin Hsrc.
  split; [unfold py_get; rewrite Hsrc; reflexivity|].
  split; [reflexivity|].
  destruct (formatter_body (PDict d)) as [out|e] eqn:Hb.
  - exfalso. unfold formatter_body in Hb. cbn [py_get] in Hb.
    rewrite Hmain in Hb.
    assert (Hnull : forall t c, py_get (PDict main) src (PInt 0) = Ok t ->
                                convert_kelvin_to_celsius t = Ok c -> False).
    { intros t c Ht Hc. unfold py_get in Ht. rewrite Hsrc in Ht.
      inversion Ht; subst t. discriminate Hc. }
    unfold temperature_fields in Hin. cbn [In] in Hin.
    repeat (step_bind Hb; cbn [bind] in Hb).
    destruct Hin as [H|[H|[H|[H|[]]]]]; inversion H; subst src dst;
      eapply Hnull; eassumption.
  - exists (exc_str e).
    pose proof (formatter_raise_body (PDict d) e Hb) as Hf.
    split; [exact Hf|].
    intros geoapify openweathermap city lat lon Hc Hw.
    rewrite (weather_of_formatter_raise geoapify openweathermap city lat lon
               (PDict d) _ Hc Hw Hf).
    reflexivity.
Qed.

Lemma formatter_null_temperature_witness :
  formatter (PDict payload_null_temp)
  = Raise (mk_http 500
             "Data formatting error: unsupported operand type(s) for -: 'NoneType' and 'float'")
  /\ respond (weather (geocoding_always (Ok london_geocoding))
                      (weather_always (Ok (PDict payload_null_temp))) "London")
     = (500, PDict [ ("detail",
                      PStr "Data formatting error: unsupported operand type(s) for -: 'NoneType' and 'float'") ]).
Proof.
  destruct (formatter_null_temperature_fails
              payload_null_temp [ ("temp", PNone) ] "temp" "current_c"
              eq_refl (or_introl eq_refl) eq_refl) as [_ [_ [msg [Hf Hw]]]].
  assert (Hmsg : msg = "unsupported operand type(s) for -: 'NoneType' and 'float'").
  { vm_compute in Hf. inversion Hf. reflexivity. }
  subst msg. split; [exact Hf|].
  apply (Hw (geocoding_always (Ok london_geocoding))
            (weather_always (Ok (PDict payload_null_temp))) "London"
            london_lat london_lon); reflexivity.
Defined.

(** * More on the unit converter *)

Lemma digits2_pos_iter_xO m d :
  Zpos (digits2_pos (Pos.iter xO m d)) = Zpos (digits2_pos m) + Zpos d.
Proof.
  induction d as [|d IH] using Pos.peano_ind.
  - cbn [Pos.iter digits2_pos]. lia.
  - rewrite Pos.iter_succ. cbn [digits2_pos]. lia.
Qed.

(** Converting an int below [2^1023] in magnitude does not overflow. *)
Lemma binary_round_no_overflow s m s' :
  Zpos m < 2 ^ 1023 ->
  binary_round Float.prec Float.emax s m 0 <> S754_infinity s'.
Proof.
  intros Hm. unfold binary_round, shl_align. rewrite fexp_eq.
  assert (HD : Zpos (digits2_pos m) <= 1023).
  { apply (Zdigits2_le (Zpos m) 1023); lia. }
  destruct (Z.max (Zpos (digits2_pos m) + 0 - 53) (-1074) - 0) as [|p|p] eqn:Hn.
  - apply binary_round_aux_no_overflow; cbn [Zdigits2]; lia.
  - apply binary_round_aux_no_overflow; cbn [Zdigits2]; lia.
  - apply binary_round_aux_no_overflow; cbn [Zdigits2]; try lia.
    rewrite digits2_pos_iter_xO. lia.
Qed.

Lemma of_int_returns z :
  Z.abs z < 2 ^ 1023 -> exists f, Float.of_int z = Ok f.
Proof.
  intros Hz. unfold Float.of_int, binary_normalize.
  destruct z as [|m|m].
  - eexists. reflexivity.
  - destruct (binary_round Float.prec Float.emax false m 0) eqn:Hr;
      try (eexists; reflexivity).
    exfalso. eapply (binary_round_no_overflow false m); [|exact Hr]. lia.
  - destruct (binary_round Float.prec Float.emax true m 0) eqn:Hr;
      try (eexists; reflexivity).
    exfalso. eapply (binary_round_no_overflow true m); [|exact Hr]. lia.
Qed.

Lemma convert_float v r :
  Float.round1 (Float.sub v kelvin_offset) = Ok r ->
  convert_kelvin_to_celsius (PFloat v) = Ok (PFloat r).
Proof.
  intros Hr. unfold convert_kelvin_to_celsius, py_sub_float. cbn [bind].
  rewrite Hr. reflexivity.
Qed.

Lemma convert_returns_float v c :
  convert_kelvin_to_celsius v = Ok c -> exists r, c = PFloat r.
Proof.
  unfold convert_kelvin_to_celsius. intros H.
  repeat step_bind H. inversion H. eauto.
Qed.

Lemma convert_int_returns z :
  Z.abs z < 2 ^ 1023 ->
  exists f r : spec_float,
    Float.of_int z = Ok f
    /\ convert_kelvin_to_celsius (PInt z) = Ok (PFloat r)
    /\ convert_kelvin_to_celsius (PFloat f) = Ok (PFloat r).
Proof.
  intros Hz. destruct (of_int_returns z Hz) as [f Hf].
  destruct (round1_sub_total f) as [r Hr]. exists f, r.
  split; [exact Hf|]. split; [|exact (convert_float f r Hr)].
  unfold convert_kelvin_to_celsius, py_sub_float. rewrite Hf. cbn [bind].
  rewrite Hr. reflexivity.
Qed.

(** X1.  An int is converted to a float first: below [2^1023] in magnitude
    the conversion returns, and the result is the one the float gives. *)
Theorem convert_kelvin_to_celsius_int :
  forall z : Z,
    Z.abs z < 2 ^ 1023 ->
    exists f r : spec_float,
      Float.of_int z = Ok f
      /\ convert_kelvin_to_celsius (PInt z) = Ok (PFloat r)
      /\ convert_kelvin_to_celsius (PFloat f) = Ok (PFloat r).
Proof. exact convert_int_returns. Qed.

Lemma convert_kelvin_to_celsius_int_witness :
  exists f r : spec_float,
    Float.of_int 283 = Ok f
    /\ convert_kelvin_to_celsius (PInt 283) = Ok (PFloat r)
    /\ convert_kelvin_to_celsius (PFloat f) = Ok (PFloat r).
Proof.
  apply (convert_kelvin_to_celsius_int 283). vm_compute. reflexivity.
Defined.

(** X2.  NaN and the infinities come back unchanged, without an exception. *)
Theorem convert_kelvin_to_celsius_non_finite :
  forall v : spec_float,
    non_finite v = true ->
    convert_kelvin_to_celsius (PFloat v) = Ok (PFloat v).
Proof.
  intros v Hv. destruct v as [s|s| |s m e]; try discriminate Hv; reflexivity.
Qed.

Lemma convert_kelvin_to_celsius_non_finite_witness :
  convert_kelvin_to_celsius (PFloat (S754_infinity false))
  = Ok (PFloat (S754_infinity false)).
Proof.
  apply (convert_kelvin_to_celsius_non_finite (S754_infinity false)). reflexivity.
Defined.

Lemma convert_non_numeric v :
  non_numeric v = true ->
  convert_kelvin_to_celsius v
  = Raise (mk_exc TypeError
             ("unsupported operand type(s) for -: '" ++ type_name v ++ "' and 'float'")).
Proof.
  intros Hv. destruct v; try discriminate Hv; reflexivity.
Qed.

Lemma convert_temperature_ok v :
  temperature_ok (Some v) = true -> exists r, convert_kelvin_to_celsius v = Ok (PFloat r).
Proof.
  intros Hv. destruct v as [|b|z|f|s|l|d]; try discriminate Hv.
  - destruct b; eexists; vm_compute; reflexivity.
  - cbn [temperature_ok] in Hv. apply Z.ltb_lt in Hv.
    destruct (convert_int_returns z Hv) as [f [r [_ [H _]]]]. eauto.
  - destruct (round1_sub_total f) as [r Hr]. exists r. exact (convert_float f r Hr).
Qed.

(** * More on the response formatter *)

Lemma py_get_dict d k def :
  py_get (PDict d) k def = Ok (get_or (dict_get d k) def).
Proof. unfold py_get, get_or. destruct (dict_get d k); reflexivity. Qed.

Lemma py_get_ok_inv v k def x :
  py_get v k def = Ok x -> exists d, v = PDict d /\ x = get_or (dict_get d k) def.
Proof.
  destruct v; try discriminate. rewrite py_get_dict. intros H; inversion H. eauto.
Qed.

(** What a returned result tells about the payload, and back. *)
Lemma formatter_body_inv payload out :
  formatter_body payload = Ok out ->
  exists (d weather main wind sys clouds : dict) (c1 c2 c3 c4 : spec_float),
    payload = PDict d
    /\ py_getitem_0 (get_or (dict_get d "weather") (PList [PDict []])) = Ok (PDict weather)
    /\ get_or (dict_get d "main") (PDict []) = PDict main
    /\ get_or (dict_get d "wind") (PDict []) = PDict wind
    /\ get_or (dict_get d "sys") (PDict []) = PDict sys
    /\ get_or (dict_get d "clouds") (PDict []) = PDict clouds
    /\ convert_kelvin_to_celsius (get_or (dict_get main "temp") (PInt 0)) = Ok (PFloat c1)
    /\ convert_kelvin_to_celsius (get_or (dict_get main "feels_like") (PInt 0)) = Ok (PFloat c2)
    /\ convert_kelvin_to_celsius (get_or (dict_get main "temp_min") (PInt 0)) = Ok (PFloat c3)
    /\ convert_kelvin_to_celsius (get_or (dict_get main "temp_max") (PInt 0)) = Ok (PFloat c4)
    /\ out = assemble d weather main wind sys clouds
                      (PFloat c1) (PFloat c2) (PFloat c3) (PFloat c4).
Proof.
  intros H. unfold formatter_body in H. repeat step_bind H.
  inversion H; subst out; clear H.
  repeat match goal with
         | E : py_get _ _ _ = Ok _ |- _ =>
             apply py_get_ok_inv in E; destruct E as [? [? ?]]
         end.
  repeat match goal with
         | E : ?a = PDict _ |- _ => is_var a; subst a
         | E : PDict _ = PDict _ |- _ => injection E as ->
         end.
  subst.
  repeat match goal with
         | E : convert_kelvin_to_celsius _ = Ok ?c |- _ =>
             is_var c; destruct (convert_returns_float _ _ E) as [? ->]
         end.
  repeat match goal with
         | E1 : ?t = PDict ?x, E2 : ?t = PDict ?y |- _ =>
             rewrite E1 in E2; injection E2 as <-
         end.
  do 10 eexists. repeat split; try eassumption; reflexivity.
Qed.

Lemma formatter_body_intro d weather main wind sys clouds c1 c2 c3 c4 :
  py_getitem_0 (get_or (dict_get d "weather") (PList [PDict []])) = Ok (PDict weather) ->
  get_or (dict_get d "main") (PDict []) = PDict main ->
  get_or (dict_get d "wind") (PDict []) = PDict wind ->
  get_or (dict_get d "sys") (PDict []) = PDict sys ->
  get_or (dict_get d "clouds") (PDict []) = PDict clouds ->
  convert_kelvin_to_celsius (get_or (dict_get main "temp") (PInt 0)) = Ok c1 ->
  convert_kelvin_to_celsius (get_or (dict_get main "feels_like") (PInt 0)) = Ok c2 ->
  convert_kelvin_to_celsius (get_or (dict_get main "temp_min") (PInt 0)) = Ok c3 ->
  convert_kelvin_to_celsius (get_or (dict_get main "temp_max") (PInt 0)) = Ok c4 ->
  formatter_body (PDict d) = Ok (assemble d weather main wind sys clouds c1 c2 c3 c4).
Proof.
  intros Hw Hm Hwi Hs Hc H1 H2 H3 H4. unfold formatter_body.
  rewrite !py_get_dict. cbn [bind]. rewrite Hw. cbn [bind].
  rewrite Hm, Hwi, Hs, Hc. rewrite !py_get_dict. cbn [bind].
  rewrite H1. cbn [bind]. rewrite H2. cbn [bind]. rewrite H3. cbn [bind].
  rewrite H4. cbn [bind]. reflexivity.
Qed.

Lemma formatter_inv payload out :
  formatter payload = Ok out ->
  exists (d weather main wind sys clouds : dict) (c1 c2 c3 c4 : spec_float),
    payload = PDict d
    /\ py_getitem_0 (get_or (dict_get d "weather") (PList [PDict []])) = Ok (PDict weather)
    /\ get_or (dict_get d "main") (PDict []) = PDict main
    /\ get_or (dict_get d "wind") (PDict []) = PDict wind
    /\ get_or (dict_get d "sys") (PDict []) = PDict sys
    /\ get_or (dict_get d "clouds") (PDict []) = PDict clouds
    /\ convert_kelvin_to_celsius (get_or (dict_get main "temp") (PInt 0)) = Ok (PFloat c1)
    /\ convert_kelvin_to_celsius (get_or (dict_get main "feels_like") (PInt 0)) = Ok (PFloat c2)
    /\ convert_kelvin_to_celsius (get_or (dict_get main "temp_min") (PInt 0)) = Ok (PFloat c3)
    /\ convert_kelvin_to_celsius (get_or (dict_get main "temp_max") (PInt 0)) = Ok (PFloat c4)
    /\ out = assemble d weather main wind sys clouds
                      (PFloat c1) (PFloat c2) (PFloat c3) (PFloat c4).
Proof. intros H. apply formatter_body_inv. apply formatter_ok_body. exact H. Qed.

Ltac formatter_invert H :=
  apply formatter_inv in H;
  destruct H as (d0 & weather0 & main0 & wind0 & sys0 & clouds0 & c1 & c2 & c3 & c4
                 & Hpayload & Hweather & Hmain & Hwind & Hsys & Hclouds
                 & Hc1 & Hc2 & Hc3 & Hc4 & Hout).

(** X3.  Every result of the formatter is a dict with the same thirteen keys
    in the same order; ["source"] is "openweathermap", there is no
    ["input_city"] yet, and the four temperatures are floats, never null. *)
Theorem formatter_result_shape :
  forall payload out : pyval,
    formatter payload = Ok out ->
    exists fields : dict,
      out = PDict fields
      /\ map fst fields = formatted_keys
      /\ dict_get fields "source" = Some (PStr "openweathermap")
      /\ dict_get fields "input_city" = None
      /\ forall src dst : string,
          In (src, dst) temperature_fields ->
          exists r : spec_float, field2 out "temperature" dst = Some (PFloat r).
Proof.
  intros payload out H. formatter_invert H. subst out.
  eexists. split; [reflexivity|]. repeat split.
  intros src dst Hin. unfold temperature_fields in Hin. cbn [In] in Hin.
  destruct Hin as [E|[E|[E|[E|[]]]]]; inversion E; subst; eexists; reflexivity.
Qed.

Lemma formatter_result_shape_witness :
  exists (out : pyval) (fields : dict),
    formatter (PDict payload_int_temp) = Ok out
    /\ out = PDict fields
    /\ map fst fields = formatted_keys
    /\ dict_get fields "input_city" = None.
Proof.
  evar (f : pyval).
  assert (Hf : formatter (PDict payload_int_temp) = Ok f)
    by (subst f; vm_compute; reflexivity).
  destruct (formatter_result_shape (PDict payload_int_temp) f Hf)
    as [fields [Ho [Hk [_ [Hi _]]]]].
  exists f, fields. auto.
Defined.

(** X4.  The five top-level values the formatter copies are copied as they
    are, and a missing one becomes null. *)
Theorem formatter_passthrough :
  forall (d : dict) (out : pyval) (src dst : string),
    formatter (PDict d) = Ok out ->
    In (src, dst) passthrough_fields ->
    field out dst = Some (or_null (dict_get d src)).
Proof.
  intros d out src dst H Hin. formatter_invert H.
  injection Hpayload as <-. subst out.
  unfold passthrough_fields in Hin. cbn [In] in Hin.
  destruct Hin as [E|[E|[E|[E|[E|[]]]]]]; inversion E; subst; reflexivity.
Qed.

Lemma formatter_passthrough_witness :
  exists out : pyval,
    formatter (PDict payload_int_temp) = Ok out
    /\ field out "city" = Some (PStr "Oslo")
    /\ field out "timestamp" = Some PNone.
Proof.
  evar (f : pyval).
  assert (Hf : formatter (PDict payload_int_temp) = Ok f)
    by (subst f; vm_compute; reflexivity).
  exists f. split; [exact Hf|]. split.
  - exact (formatter_passthrough payload_int_temp f "name" "city" Hf
             (or_introl eq_refl)).
  - exact (formatter_passthrough payload_int_temp f "dt" "timestamp" Hf
             (or_intror (or_intror (or_intror (or_introl eq_refl))))).
Defined.

(** X5.  When the formatter returns, ["main"], ["wind"], ["sys"] and
    ["clouds"] were objects (an absent one counts as empty), and humidity,
    pressure, country, cloud cover and the three wind values are copied from
    them unconverted, null when missing. *)
Theorem formatter_sub_objects :
  forall (d : dict) (out : pyval),
    formatter (PDict d) = Ok out ->
    exists main wind sys clouds : dict,
      get_or (dict_get d "main") (PDict []) = PDict main
      /\ get_or (dict_get d "wind") (PDict []) = PDict wind
      /\ get_or (dict_get d "sys") (PDict []) = PDict sys
      /\ get_or (dict_get d "clouds") (PDict []) = PDict clouds
      /\ field out "humidity" = Some (or_null (dict_get main "humidity"))
      /\ field out "pressure" = Some (or_null (dict_get main "pressure"))
      /\ field out "country" = Some (or_null (dict_get sys "country"))
      /\ field out "cloud_cover_pct" = Some (or_null (dict_get clouds "all"))
      /\ field out "wind"
         = Some (PDict [ ("speed_mps", or_null (dict_get wind "speed"));
                         ("direction_deg", or_null (dict_get wind "deg"));
                         ("gust_mps", or_null (dict_get wind "gust")) ]).
Proof.
  intros d out H. formatter_invert H. injection Hpayload as <-. subst out.
  exists main0, wind0, sys0, clouds0. repeat split; assumption.
Qed.

Lemma formatter_sub_objects_witness :
  exists (out : pyval) (main wind sys clouds : dict),
    formatter (PDict payload_int_temp) = Ok out
    /\ get_or (dict_get payload_int_temp "main") (PDict []) = PDict main
    /\ get_or (dict_get payload_int_temp "clouds") (PDict []) = PDict clouds
    /\ field out "humidity" = Some (or_null (dict_get main "humidity"))
    /\ field out "cloud_cover_pct" = Some (or_null (dict_get clouds "all")).
Proof.
  evar (f : pyval).
  assert (Hf : formatter (PDict payload_int_temp) = Ok f)
    by (subst f; vm_compute; reflexivity).
  destruct (formatter_sub_objects payload_int_temp f Hf)
    as (main & wind & sys & clouds & Hm & _ & _ & Hc & Hh & _ & _ & Hcc & _).
  exists f, main, wind, sys, clouds. auto.
Defined.

(** X6.  When the formatter returns, ["weather"] was absent, and the
    conditions are all null, or it was a list that starts with an object, and
    the conditions are read from that first object alone. *)
Theorem formatter_first_weather_only :
  forall (d : dict) (out : pyval),
    formatter (PDict d) = Ok out ->
    (dict_get d "weather" = None /\ field out "conditions" = Some null_conditions)
    \/ exists (w : dict) (rest : list pyval),
        dict_get d "weather" = Some (PList (PDict w :: rest))
        /\ field out "conditions"
           = Some (PDict [ ("label", or_null (dict_get w "main"));
                           ("description", or_null (dict_get w "description"));
                           ("icon", or_null (dict_get w "icon")) ]).
Proof.
  intros d out H. formatter_invert H. injection Hpayload as <-. subst out.
  destruct (dict_get d "weather") as [v|] eqn:Hw; cbn [get_or] in Hweather.
  - right. destruct v as [|b|z|f|s|l|dd]; try discriminate Hweather.
    + destruct s; discriminate Hweather.
    + destruct l as [|x rest]; [discriminate Hweather|].
      cbn [py_getitem_0] in Hweather. injection Hweather as ->.
      exists weather0, rest. split; reflexivity.
  - left. cbn [py_getitem_0] in Hweather. injection Hweather as <-.
    split; reflexivity.
Qed.

Lemma formatter_first_weather_only_witness :
  exists out : pyval,
    formatter (PDict payload_int_temp) = Ok out
    /\ field2 out "conditions" "label" = Some (PStr "Rain").
Proof.
  evar (f : pyval).
  assert (Hf : formatter (PDict payload_int_temp) = Ok f)
    by (subst f; vm_compute; reflexivity).
  exists f. split; [exact Hf|].
  destruct (formatter_first_weather_only payload_int_temp f Hf)
    as [[Hnone _]|(w & rest & Hw & Hc)].
  - discriminate Hnone.
  - injection Hw as <- _. unfold field2. rewrite Hc. reflexivity.
Defined.

(** X7.  The formatter reads ten top-level keys and nothing else: two
    payloads that agree on them get the same answer, result or error. *)
Theorem formatter_reads_payload_keys :
  forall d d' : dict,
    (forall k : string, In k payload_keys -> dict_get d k = dict_get d' k) ->
    formatter (PDict d) = formatter (PDict d').
Proof.
  intros d d' H. unfold formatter, formatter_body.
  rewrite !py_get_dict.
  rewrite (H "weather"), (H "main"), (H "wind"), (H "name"), (H "sys"),
    (H "coord"), (H "visibility"), (H "clouds"), (H "dt"), (H "timezone")
    by (unfold payload_keys; cbn [In]; tauto).
  rewrite <- !py_get_dict. reflexivity.
Qed.

Lemma formatter_reads_payload_keys_witness :
  formatter (PDict (("id", PInt 2643743) :: ("cod", PInt 200) :: payload_int_temp))
  = formatter (PDict payload_int_temp).
Proof.
  apply formatter_reads_payload_keys.
  unfold payload_keys. cbn [In].
  intros k [<-|[<-|[<-|[<-|[<-|[<-|[<-|[<-|[<-|[<-|[]]]]]]]]]]]; reflexivity.
Defined.

Lemma object_or_absent_get o :
  object_or_absent o = true -> exists m, get_or o (PDict []) = PDict m.
Proof.
  destruct o as [v|]; cbn [object_or_absent get_or].
  - destruct v; try discriminate. eauto.
  - eauto.
Qed.

Lemma temperature_ok_convert o :
  temperature_ok o = true ->
  exists r, convert_kelvin_to_celsius (get_or o (PInt 0)) = Ok (PFloat r).
Proof.
  destruct o as [v|]; cbn [get_or].
  - apply convert_temperature_ok.
  - intros _. eexists. exact convert_default.
Qed.

(** X8.  A payload of the usual shape is always formatted: ["weather"]
    absent or a list that starts with an object; ["main"], ["wind"], ["sys"],
    ["clouds"] absent or objects; each temperature absent, a float (NaN and
    infinities included), a bool, or an int below [2^1023] in magnitude.
    Nothing else in the payload matters. *)
Theorem formatter_returns_on_well_shaped :
  forall d : dict,
    well_shaped d = true ->
    exists out : pyval, formatter (PDict d) = Ok out.
Proof.
  intros d H. unfold well_shaped in H.
  repeat (apply andb_prop in H; destruct H as [H ?]).
  match goal with
  | Ht : forallb _ temperature_fields = true |- _ =>
      unfold temperature_fields in Ht; cbn [forallb fst] in Ht;
      repeat (apply andb_prop in Ht; destruct Ht as [? Ht])
  end.
  repeat match goal with
         | Ho : object_or_absent (dict_get d ?k) = true |- _ =>
             let m := fresh "m" in
             let E := fresh "E" in
             destruct (object_or_absent_get _ Ho) as [m E]; clear Ho
         end.
  assert (Hmain : exists m, get_or (dict_get d "main") (PDict []) = PDict m
                            /\ main_of d = m).
  { unfold main_of.
    match goal with
    | E : get_or (dict_get d "main") _ = PDict ?m |- _ =>
        exists m; split; [exact E|];
        destruct (dict_get d "main") as [v|]; cbn [get_or] in E;
        [subst v; reflexivity|injection E as <-; reflexivity]
    end. }
  destruct Hmain as [main [Hm Hmo]]. rewrite Hmo in *.
  repeat match goal with
         | Ht : temperature_ok (dict_get main ?k) = true |- _ =>
             let r := fresh "r" in
             let E := fresh "E" in
             destruct (temperature_ok_convert _ Ht) as [r E]; clear Ht
         end.
  assert (Hw : exists w, py_getitem_0 (get_or (dict_get d "weather") (PList [PDict []]))
                         = Ok (PDict w)).
  { destruct (dict_get d "weather") as [v|]; cbn [get_or weather_ok] in *.
    - destruct v as [| | | | |l|]; try discriminate.
      destruct l as [|x rest]; [discriminate|].
      destruct x; try discriminate. eexists. reflexivity.
    - eexists. reflexivity. }
  destruct Hw as [w Hw].
  eexists. unfold formatter.
  erewrite formatter_body_intro; [reflexivity| | | | | | | | | ]; eassumption.
Qed.

Lemma formatter_returns_on_well_shaped_witness :
  exists out : pyval, formatter (PDict payload_int_temp) = Ok out.
Proof.
  apply (formatter_returns_on_well_shaped payload_int_temp).
  vm_compute. reflexivity.
Defined.

(** X9.  A temperature that is present but not a number (null, a string such
    as "283.15", a list, an object) is neither defaulted nor parsed: the
    formatter fails with a 500. *)
Theorem formatter_non_numeric_temperature_fails :
  forall (d main : dict) (src dst : string) (v : pyval),
    dict_get d "main" = Some (PDict main) ->
    In (src, dst) temperature_fields ->
    dict_get main src = Some v ->
    non_numeric v = true ->
    exists msg : string,
      formatter (PDict d) = Raise (mk_http 500 ("Data formatting error: " ++ msg)).
Proof.
  intros d main src dst v Hmain Hin Hsrc Hv.
  destruct (formatter_body (PDict d)) as [out|e] eqn:Hb.
  - exfalso. apply formatter_body_inv in Hb.
    destruct Hb as (d0 & weather0 & main0 & wind0 & sys0 & clouds0 & c1 & c2 & c3 & c4
                    & Hpayload & _ & Hm & _ & _ & _ & Hc1 & Hc2 & Hc3 & Hc4 & _).
    injection Hpayload as <-. rewrite Hmain in Hm. cbn [get_or] in Hm.
    injection Hm as <-.
    pose proof (convert_non_numeric v Hv) as Hraise.
    unfold temperature_fields in Hin. cbn [In] in Hin.
    destruct Hin as [E|[E|[E|[E|[]]]]]; inversion E; subst src dst;
      rewrite Hsrc in *; cbn [get_or] in *; congruence.
  - exists (exc_str e). apply formatter_raise_body. exact Hb.
Qed.

Lemma formatter_non_numeric_temperature_witness :
  formatter (PDict payload_string_temp)
  = Raise (mk_http 500
             "Data formatting error: unsupported operand type(s) for -: 'str' and 'float'").
Proof.
  destruct (formatter_non_numeric_temperature_fails
              payload_string_temp [ ("temp", PStr "283.15") ] "temp" "current_c"
              (PStr "283.15") eq_refl (or_introl eq_refl) eq_refl eq_refl)
    as [msg Hf].
  assert (Hmsg : msg = "unsupported operand type(s) for -: 'str' and 'float'").
  { vm_compute in Hf. inversion Hf. reflexivity. }
  subst msg. exact Hf.
Defined.

(** * More on the geocoding client *)

(** X10.  The client returns a coordinate in one case only: the provider
    answered with an object whose ["results"] is a list that starts with an
    object holding both ["lat"] and ["lon"]; the coordinate is that pair. *)
Theorem convert_cityname_to_coordinate_returns_iff :
  forall geoapify (city : string) (lat lon : pyval),
    convert_cityname_to_coordinate geoapify city = Ok (lat, lon)
    <-> exists (d first : dict) (rest : list pyval),
        geoapify city = Ok (PDict d)
        /\ dict_get d "results" = Some (PList (PDict first :: rest))
        /\ dict_get first "lat" = Some lat
        /\ dict_get first "lon" = Some lon.
Proof.
  intros geoapify city lat lon. split.
  - unfold convert_cityname_to_coordinate.
    destruct (convert_cityname_to_coordinate_body geoapify city) as [c|e] eqn:Hb;
      [|destruct (exc_class_of e); discriminate].
    intros H; injection H as ->.
    unfold convert_cityname_to_coordinate_body in Hb.
    step_bind Hb. step_bind Hb.
    match goal with
    | E : py_get _ "results" _ = Ok _ |- _ =>
        apply py_get_ok_inv in E; destruct E as [d [-> ->]]
    end.
    cbn [py_getitem] in Hb.
    destruct (dict_get d "results") as [r|] eqn:Hres; cbn [get_or] in Hb;
      [|discriminate Hb].
    destruct r as [|b|z|f|s|l|dd].
    + discriminate Hb.
    + destruct b; discriminate Hb.
    + cbn [py_truthy] in Hb. destruct (Z.eqb z 0); discriminate Hb.
    + destruct f; discriminate Hb.
    + destruct s; discriminate Hb.
    + destruct l as [|x rest]; [discriminate Hb|].
      cbn in Hb. destruct x as [| | | | | |first]; try discriminate Hb.
      cbn in Hb.
      destruct (dict_get first "lon") as [lon'|] eqn:Hlon; [|discriminate Hb].
      destruct (dict_get first "lat") as [lat'|] eqn:Hlat; [|discriminate Hb].
      cbn in Hb. injection Hb as <- <-.
      exists d, first, rest. auto.
    + destruct dd; discriminate Hb.
  - intros (d & first & rest & Hgeo & Hres & Hlat & Hlon).
    exact (convert_first_result geoapify city d first rest lat lon Hgeo Hres Hlat Hlon).
Qed.

Lemma convert_cityname_to_coordinate_returns_iff_witness :
  exists (d first : dict) (rest : list pyval),
    geocoding_always (Ok geocoding_two_results) "London" = Ok (PDict d)
    /\ dict_get d "results" = Some (PList (PDict first :: rest))
    /\ dict_get first "lat" = Some london_lat
    /\ dict_get first "lon" = Some london_lon.
Proof.
  apply (proj1 (convert_cityname_to_coordinate_returns_iff
                  (geocoding_always (Ok geocoding_two_results)) "London"
                  london_lat london_lon)).
  reflexivity.
Defined.

(** X11.  Any falsy ["results"] counts as no result: null, false, zero, an
    empty string, an empty object, as well as an empty list or a missing key,
    all give the not-found 500 naming the city. *)
Theorem falsy_results_not_found :
  forall geoapify openweathermap (city : string) (d : dict),
    geoapify city = Ok (PDict d) ->
    py_truthy (or_null (dict_get d "results")) = false ->
    convert_cityname_to_coordinate_body geoapify city
    = Raise (mk_exc ValueError ("City '" ++ city ++ "' not found in geocoding results"))
    /\ respond (weather geoapify openweathermap city)
       = (500, PDict [ ("detail",
                        PStr ("City '" ++ city ++ "' not found in geocoding results")) ]).
Proof.
  intros geoapify openweathermap city d Hgeo Hfalsy.
  assert (Hb : convert_cityname_to_coordinate_body geoapify city
               = Raise (mk_exc ValueError (not_found_message city))).
  { unfold convert_cityname_to_coordinate_body. rewrite Hgeo. cbn [bind].
    rewrite py_get_dict. cbn [bind]. fold (or_null (dict_get d "results")).
    rewrite Hfalsy. reflexivity. }
  split; [exact Hb|].
  pose proof (convert_of_body_raise geoapify city _ Hb ltac:(discriminate)) as Hc.
  rewrite (weather_of_convert_raise geoapify openweathermap city _ Hc).
  reflexivity.
Qed.

Lemma falsy_results_not_found_witness :
  respond (weather (geocoding_always (Ok geocoding_null_results))
                   (weather_always (Ok london_payload)) "Atlantis")
  = (500, PDict [ ("detail", PStr "City 'Atlantis' not found in geocoding results") ]).
Proof.
  apply (falsy_results_not_found
           (geocoding_always (Ok geocoding_null_results))
           (weather_always (Ok london_payload))
           "Atlantis" [ ("results", PNone) ]); reflexivity.
Defined.

(** X12.  A geocoding body that is not an object (a list, a string, a number,
    null) is not reported as not-found: [data.get] raises AttributeError and
    the client answers with a 500 whose detail is that error's text. *)
Theorem non_object_geocoding_response :
  forall geoapify openweathermap (city : string) (data : pyval),
    geoapify city = Ok data ->
    is_dict data = false ->
    convert_cityname_to_coordinate geoapify city
    = Raise (mk_http 500 ("'" ++ type_name data ++ "' object has no attribute 'get'"))
    /\ respond (weather geoapify openweathermap city)
       = (500, PDict [ ("detail",
                        PStr ("'" ++ type_name data ++ "' object has no attribute 'get'")) ]).
Proof.
  intros geoapify openweathermap city data Hgeo Hd.
  assert (Hb : convert_cityname_to_coordinate_body geoapify city
               = Raise (attribute_error data "get")).
  { unfold convert_cityname_to_coordinate_body. rewrite Hgeo. cbn [bind].
    destruct data; try discriminate Hd; reflexivity. }
  pose proof (convert_of_body_raise geoapify city _ Hb ltac:(discriminate)) as Hc.
  split; [exact Hc|].
  rewrite (weather_of_convert_raise geoapify openweathermap city _ Hc).
  reflexivity.
Qed.

Lemma non_object_geocoding_response_witness :
  respond (weather (geocoding_always (Ok (PList [])))
                   (weather_always (Ok london_payload)) "London")
  = (500, PDict [ ("detail", PStr "'list' object has no attribute 'get'") ]).
Proof.
  apply (non_object_geocoding_response
           (geocoding_always (Ok (PList [])))
           (weather_always (Ok london_payload)) "London" (PList []));
    reflexivity.
Defined.

(** * More on the endpoint *)

(** X13.  A successful request means all three stages returned, and the body
    is the formatter's result with ["input_city"] appended as the last key:
    the thirteen formatted fields are unchanged. *)
Theorem weather_returns_inv :
  forall geoapify openweathermap (city : string) (out : pyval),
    weather geoapify openweathermap city = Ok out ->
    exists (lat lon payload : pyval) (fields : dict),
      convert_cityname_to_coordinate geoapify city = Ok (lat, lon)
      /\ openweathermap lat lon = Ok payload
      /\ formatter payload = Ok (PDict fields)
      /\ out = PDict (fields ++ [ ("input_city", PStr city) ])
      /\ field out "input_city" = Some (PStr city)
      /\ forall k : string, In k formatted_keys -> field out k = dict_get fields k.
Proof.
  intros geoapify openweathermap city out H.
  unfold weather, weather_body, weather_info in H.
  destruct (convert_cityname_to_coordinate geoapify city) as [[lat lon]|h] eqn:Hc;
    cbn [lift_http bind] in H; [|discriminate H].
  destruct (openweathermap lat lon) as [payload|e] eqn:Hw;
    cbn [lift_http bind] in H.
  2:{ destruct (exc_class_of e); discriminate H. }
  destruct (formatter payload) as [formatted|h] eqn:Hf;
    cbn [lift_http bind] in H; [|discriminate H].
  pose proof Hf as Hinv. formatter_invert Hinv. subst formatted.
  cbn in H. injection H as <-.
  exists lat, lon, payload. eexists. split; [reflexivity|].
  split; [exact Hw|]. split; [exact Hf|]. split; [reflexivity|].
  split; [reflexivity|].
  intros k Hk. unfold formatted_keys in Hk. cbn [In] in Hk.
  repeat (destruct Hk as [<-|Hk]; [reflexivity|]). destruct Hk.
Qed.

Lemma weather_returns_inv_witness :
  exists (out lat lon payload : pyval) (fields : dict),
    weather (geocoding_always (Ok london_geocoding)) weather_london_only "London" = Ok out
    /\ weather_london_only lat lon = Ok payload
    /\ formatter payload = Ok (PDict fields)
    /\ out = PDict (fields ++ [ ("input_city", PStr "London") ]).
Proof.
  evar (o : pyval).
  assert (Ho : weather (geocoding_always (Ok london_geocoding)) weather_london_only
                       "London" = Ok o)
    by (subst o; vm_compute; reflexivity).
  destruct (weather_returns_inv _ _ _ _ Ho)
    as (lat & lon & payload & fields & _ & Hw & Hf & Hout & _).
  exists o, lat, lon, payload, fields. auto.
Defined.

(** X14.  When the city is resolved and the weather request fails, the answer
    is a 500: for a RequestException (connection error, timeout, error
    status) the detail is the weather client's message, for any other
    exception it is the exception's text alone. *)
Theorem weather_provider_failure :
  forall geoapify openweathermap (city : string) (lat lon : pyval) (e : pyexc),
    convert_cityname_to_coordinate geoapify city = Ok (lat, lon) ->
    openweathermap lat lon = Raise e ->
    (exc_class_of e = RequestException ->
     respond (weather geoapify openweathermap city)
     = (500, PDict [ ("detail",
                      PStr ("Weather API error: " ++ exc_str e
                            ++ ". Check OPENWEATHER_API_KEY.")) ]))
    /\ (exc_class_of e <> RequestException ->
        respond (weather geoapify openweathermap city)
        = (500, PDict [ ("detail", PStr (exc_str e)) ])).
Proof.
  intros geoapify openweathermap city lat lon e Hc Hw.
  unfold weather, weather_body, weather_info. rewrite Hc. cbn [lift_http bind].
  rewrite Hw. split; intros Hcls.
  - rewrite Hcls. reflexivity.
  - destruct (exc_class_of e); try reflexivity. congruence.
Qed.

Lemma weather_provider_failure_witness :
  respond (weather (geocoding_always (Ok london_geocoding))
                   (weather_always (Raise (mk_exc RequestException "401 Client Error")))
                   "London")
  = (500, PDict [ ("detail",
                   PStr "Weather API error: 401 Client Error. Check OPENWEATHER_API_KEY.") ]).
Proof.
  destruct (weather_provider_failure
              (geocoding_always (Ok london_geocoding))
              (weather_always (Raise (mk_exc RequestException "401 Client Error")))
              "London" london_lat london_lon
              (mk_exc RequestException "401 Client Error") eq_refl eq_refl)
    as [H _].
  exact (H eq_refl).
Defined.

(** X15.  The weather provider is asked about the resolved coordinate and
    nothing else: two providers that agree there give the same answer, and
    when geocoding fails the provider plays no part at all. *)
Theorem weather_reads_resolved_coordinate :
  forall geoapify openweathermap openweathermap' (city : string),
    (forall lat lon : pyval,
        convert_cityname_to_coordinate geoapify city = Ok (lat, lon) ->
        openweathermap lat lon = openweathermap' lat lon) ->
    weather geoapify openweathermap city = weather geoapify openweathermap' city.
Proof.
  intros geoapify openweathermap openweathermap' city H.
  unfold weather, weather_body, weather_info.
  destruct (convert_cityname_to_coordinate geoapify city) as [[lat lon]|h] eqn:Hc;
    cbn [lift_http bind]; [|reflexivity].
  rewrite (H lat lon eq_refl). reflexivity.
Qed.

Lemma weather_reads_resolved_coordinate_witness :
  weather (geocoding_always (Ok london_geocoding)) weather_london_only "London"
  = weather (geocoding_always (Ok london_geocoding))
            (weather_always (Ok london_payload)) "London".
Proof.
  apply weather_reads_resolved_coordinate.
  intros lat lon H. vm_compute in H. injection H as <- <-.
  vm_compute. reflexivity.
Defined.



(** X17.  The converter's result has one decimal: it is NaN, an infinity,
    or the double nearest to [q / 10] for a whole number [q]. *)
Theorem convert_kelvin_to_celsius_one_decimal :
  forall (v : pyval) (r : spec_float),
    convert_kelvin_to_celsius v = Ok (PFloat r) ->
    non_finite r = true
    \/ exists (neg : bool) (q : Z), 0 <= q /\ r = Float.of_fraction neg q 10.
Proof.
  intros v r H. unfold convert_kelvin_to_celsius in H.
  destruct (py_sub_float v kelvin_offset) as [x|e0]; cbn [bind] in H;
    [|discriminate H].
  destruct (Float.round1 x) as [r'|e0] eqn:Hr; cbn [bind] in H; [|discriminate H].
  injection H as ->.
  destruct x as [s|s| |s m e]; cbn [Float.round1] in Hr.
  - right. exists s, 0. split; [lia|]. inversion Hr. reflexivity.
  - left. inversion Hr. reflexivity.
  - left. inversion Hr. reflexivity.
  - right. exists s, (Float.tenths m e). split.
    + destruct e as [|p|p].
      * unfold Float.tenths. lia.
      * unfold Float.tenths. pose proof (pow2_pos p). nia.
      * apply tenths_neg_bounds.
    + destruct (Float.of_fraction s (Float.tenths m e) 10); congruence.
Qed.

Lemma convert_kelvin_to_celsius_one_decimal_witness :
  non_finite float_26_9 = true
  \/ exists (neg : bool) (q : Z), 0 <= q /\ float_26_9 = Float.of_fraction neg q 10.
Proof.
  apply (convert_kelvin_to_celsius_one_decimal (PInt 300) float_26_9).
  vm_compute. reflexivity.
Defined.
